(** * Smart-To-Do: task and credential handlers of the three server variants

    The repository holds three variants of one HTTP server:
    - [IndexJs]  (src/untitled/index.js): users and tasks in JSON files;
    - [Part000]  (src/unnamed/part_000): users in SQLite, tasks in JSON files;
    - [Part001]  (src/unnamed/part_001): users and tasks in SQLite.

    Each handler is embedded as a pure function from the persisted store and
    the request to the response sent with [sendResponse] and the new store.
    Values read from the clock and from [Math.random] are inputs. *)

From Stdlib Require Import ZArith Ascii.
From stdpp Require Import base option list gmap strings pretty sorting.

Local Open Scope Z_scope.
Set Warnings "-register-all".

(** ** JavaScript values as they come out of [JSON.parse] *)

Module Js.

(** Strings are sequences of bytes: the UTF-8 encoding of the text.
    [JNum n], for an integer [n] that a double holds exactly, is the Number
    [n]: the finite integer-valued numbers are the ones covered, a number
    with a fraction is not. For any other [n] the functions below take
    [JNum n] as the Number nearest to [n], which is what [JSON.parse] gives
    for the literal [n]. An object is the list of its own properties. *)
Inductive json : Type :=
| JNull
| JBool (b : bool)
| JNum (n : Z)
| JStr (s : string)
| JArr (elems : list json)
| JObj (props : list (string * json)).

(** The result of reading a property: [None] is [undefined]. *)
Definition value := option json.

(** [ToBoolean]: what [!x], [x ? a : b], [x || y] and [Boolean(x)] test. *)
Definition js_truthy (v : json) : bool :=
  match v with
  | JNull => false
  | JBool b => b
  | JNum n => negb (n =? 0)
  | JStr s => negb (String.eqb s "")
  | JArr _ | JObj _ => true
  end.

Definition truthy (v : value) : bool := from_option js_truthy false v.

(** [x || dflt] where [dflt] is a literal. *)
Definition or_else (v : value) (dflt : json) : json :=
  match v with
  | Some x => if js_truthy x then x else dflt
  | None => dflt
  end.

(** *** Numbers *)

(** The integer value of the double nearest to [n], ties going to the even
    significand of 53 bits; [2^1024] stands for Infinity. *)
Definition Number_value (n : Z) : Z :=
  let a := Z.abs n in
  let bits := Z.log2 a + 1 in
  if bits <=? 53 then n
  else
    let e := bits - 53 in
    let q := Z.shiftr a e in
    let r := a - Z.shiftl q e in
    let half := Z.shiftl 1 (e - 1) in
    let q' := if (half <? r) || ((r =? half) && Z.odd q) then q + 1 else q in
    Z.sgn n * Z.min (Z.shiftl q' e) (2 ^ 1024).

(** The decimal of [k] significant digits that is nearest to [v] and denotes
    the same Number as [v], if there is one; [v] has [len] digits. *)
Definition digits_candidate (v len k : Z) : option Z :=
  if len <=? k then Some v
  else
    let p := 10 ^ (len - k) in
    let c1 := (v / p) * p in
    let c2 := c1 + p in
    let ok1 := Number_value c1 =? v in
    let ok2 := Number_value c2 =? v in
    if ok1 && ok2 then
      if (v - c1 <? c2 - v) || ((v - c1 =? c2 - v) && Z.even (v / p))
      then Some c1 else Some c2
    else if ok1 then Some c1
    else if ok2 then Some c2
    else None.

(** The decimal with the fewest significant digits that denotes the Number
    [v]: the digits of Number::toString, followed by zeros. Seventeen
    digits tell any two doubles apart. *)
Definition shortest_decimal (v : Z) : Z :=
  let len := Z.of_nat (String.length (pretty v)) in
  default v (head (omap (digits_candidate v len) (seqZ 1 17))).

Fixpoint drop_zeros (l : list ascii) : list ascii :=
  match l with
  | c :: l' => if Ascii.eqb c "0" then drop_zeros l' else l
  | [] => []
  end.

(** The digits of [c] without its trailing zeros. *)
Definition significand (c : Z) : string :=
  String.string_of_list_ascii
    (rev (drop_zeros (rev (String.list_ascii_of_string (pretty c))))).

(** Number::toString for a positive Number [v]: plain digits up to 21 of
    them, and beyond that one digit, the further digits after a point, and
    the exponent. *)
Definition positive_toString (v : Z) : string :=
  if 2 ^ 1024 <=? v then "Infinity"
  else
    let c := shortest_decimal v in
    let n := Z.of_nat (String.length (pretty c)) in
    if n <=? 21 then pretty c
    else
      match significand c with
      | String d EmptyString =>
          String d EmptyString +:+ "e+" +:+ pretty (n - 1)
      | String d more =>
          String d EmptyString +:+ "." +:+ more +:+ "e+" +:+ pretty (n - 1)
      | EmptyString => pretty c
      end.

(** [String(x)] for the number [JNum n]. *)
Definition Number_toString (n : Z) : string :=
  let v := Number_value n in
  if v =? 0 then "0"
  else if v <? 0 then "-" +:+ positive_toString (- v)
  else positive_toString v.

(** [a === b] for values that come from two different [JSON.parse] results
    (or from a parse result and a string of the request): primitives are
    compared by value, arrays and objects are distinct references. *)
Definition strict_eq (a b : value) : bool :=
  match a, b with
  | None, None => true
  | Some JNull, Some JNull => true
  | Some (JBool x), Some (JBool y) => Bool.eqb x y
  | Some (JNum x), Some (JNum y) => Number_value x =? Number_value y
  | Some (JStr x), Some (JStr y) => String.eqb x y
  | _, _ => false
  end.

(** [String(x)] throws a TypeError: an object with a property [toString]
    of its own has no [toString] that could be called (no JSON value can),
    and [Object.prototype.valueOf] does not give a primitive; an array
    throws when the conversion of one of its elements does. *)
Fixpoint String_throws (v : json) : bool :=
  match v with
  | JObj props => existsb (λ p, String.eqb (fst p) "toString") props
  | JArr elems =>
      (fix any (l : list json) : bool :=
         match l with
         | [] => false
         | x :: rest => String_throws x || any rest
         end) elems
  | _ => false
  end.

(** [String(x)] and the conversion done by template literals, for a value
    on which it does not throw. *)
Fixpoint ToString (v : json) : string :=
  match v with
  | JNull => "null"
  | JBool true => "true"
  | JBool false => "false"
  | JNum n => Number_toString n
  | JStr s => s
  | JArr elems =>
      (fix join (l : list json) : string :=
         match l with
         | [] => ""
         | x :: rest =>
             let sx := match x with JNull => "" | _ => ToString x end in
             match rest with
             | [] => sx
             | _ :: _ => sx +:+ "," +:+ join rest
             end
         end) elems
  | JObj _ => "[object Object]"
  end.

Definition ToString_value (v : value) : string :=
  match v with
  | Some x => ToString x
  | None => "undefined"
  end.

(** *** [String.prototype.trim] *)

Definition chars (l : list Z) : list ascii :=
  map (λ n, ascii_of_N (Z.to_N n)) l.

(** The WhiteSpace and LineTerminator code points of ECMAScript, in UTF-8. *)
Definition whitespace : list (list ascii) :=
  [ chars [9]; chars [10]; chars [11]; chars [12]; chars [13]; chars [32];
    chars [194; 160];                              (* U+00A0 *)
    chars [225; 154; 128];                         (* U+1680 *)
    chars [226; 128; 128]; chars [226; 128; 129];  (* U+2000 .. U+200A *)
    chars [226; 128; 130]; chars [226; 128; 131];
    chars [226; 128; 132]; chars [226; 128; 133];
    chars [226; 128; 134]; chars [226; 128; 135];
    chars [226; 128; 136]; chars [226; 128; 137];
    chars [226; 128; 138];
    chars [226; 128; 168]; chars [226; 128; 169];  (* U+2028, U+2029 *)
    chars [226; 128; 175];                         (* U+202F *)
    chars [226; 129; 159];                         (* U+205F *)
    chars [227; 128; 128];                         (* U+3000 *)
    chars [239; 187; 191] ].                       (* U+FEFF *)

(** [strip_prefix w s] is the rest of [s] after its prefix [w]. *)
Fixpoint strip_prefix (w s : list ascii) : option (list ascii) :=
  match w, s with
  | [], _ => Some s
  | a :: w', b :: s' => if Ascii.eqb a b then strip_prefix w' s' else None
  | _ :: _, [] => None
  end.

(** Removes one leading character of the table [ws], the first that fits. *)
Fixpoint strip_one (ws : list (list ascii)) (s : list ascii)
  : option (list ascii) :=
  match ws with
  | [] => None
  | w :: ws' =>
      match strip_prefix w s with
      | Some r => Some r
      | None => strip_one ws' s
      end
  end.

(** Removes leading characters of the table as long as there are any. *)
Fixpoint strip_many (ws : list (list ascii)) (fuel : nat) (s : list ascii)
  : list ascii :=
  match fuel with
  | O => s
  | S fuel' =>
      match strip_one ws s with
      | Some r => strip_many ws fuel' r
      | None => s
      end
  end.

Definition strip_start (ws : list (list ascii)) (s : list ascii) : list ascii :=
  strip_many ws (length s) s.

Definition strip_end (ws : list (list ascii)) (s : list ascii) : list ascii :=
  rev (strip_start (map (@rev ascii) ws) (rev s)).

Definition trim (s : string) : string :=
  String.string_of_list_ascii
    (strip_end whitespace
       (strip_start whitespace (String.list_ascii_of_string s))).

End Js.

(** ** [Buffer]: UTF-8 and base64, as [handleLogin] and [authenticate] use them *)

Module Buffer.

Definition octets (s : string) : list N :=
  map N_of_ascii (String.list_ascii_of_string s).

Definition of_octets (l : list N) : string :=
  String.string_of_list_ascii (map ascii_of_N l).

Local Open Scope N_scope.

(** *** [buf.toString('utf-8')]

    The decoder of the WHATWG Encoding standard; every ill-formed sequence
    becomes U+FFFD. The text it yields is given by its UTF-8 bytes again. *)

Definition replacement : list N := [239; 191; 189].

Record pending : Type := {
  seen : list N;     (* bytes of the sequence read so far *)
  needed : nat;      (* continuation bytes still to come *)
  lower : N;         (* bounds of the next continuation byte *)
  upper : N
}.

(** A byte read outside of a sequence. *)
Definition lead (b : N) : list N * option pending :=
  if b <=? 127 then ([b], None)
  else if (194 <=? b) && (b <=? 223) then
    ([], Some {| seen := [b]; needed := 1; lower := 128; upper := 191 |})
  else if (224 <=? b) && (b <=? 239) then
    ([], Some {| seen := [b]; needed := 2;
                 lower := if b =? 224 then 160 else 128;
                 upper := if b =? 237 then 159 else 191 |})
  else if (240 <=? b) && (b <=? 244) then
    ([], Some {| seen := [b]; needed := 3;
                 lower := if b =? 240 then 144 else 128;
                 upper := if b =? 244 then 143 else 191 |})
  else (replacement, None).

Fixpoint utf8_decode (st : option pending) (bs : list N) : list N :=
  match bs with
  | [] => match st with None => [] | Some _ => replacement end
  | b :: bs' =>
      match st with
      | None => let '(out, st') := lead b in out ++ utf8_decode st' bs'
      | Some p =>
          if (lower p <=? b) && (b <=? upper p) then
            match needed p with
            | S (S n) =>
                utf8_decode
                  (Some {| seen := seen p ++ [b]; needed := S n;
                           lower := 128; upper := 191 |}) bs'
            | _ => (seen p ++ [b]) ++ utf8_decode None bs'
            end
          else
            (* the byte is read again, outside of a sequence *)
            let '(out, st') := lead b in
            replacement ++ out ++ utf8_decode st' bs'
      end
  end.

Definition toString_utf8 (buf : list N) : string :=
  of_octets (utf8_decode None buf).

(** *** base64 *)

Definition alphabet : string :=
  "ABCDEFGHIJKLMNOPQRSTUVWXYZabcdefghijklmnopqrstuvwxyz0123456789+/".

Definition base64_char (n : N) : ascii :=
  default "="%char (String.get (N.to_nat n) alphabet).

(** [buf.toString('base64')] *)
Fixpoint toString_base64 (buf : list N) : string :=
  match buf with
  | [] => ""
  | [a] =>
      String (base64_char (a / 4))
        (String (base64_char (a mod 4 * 16)) "==")
  | [a; b] =>
      String (base64_char (a / 4))
        (String (base64_char (a mod 4 * 16 + b / 16))
           (String (base64_char (b mod 16 * 4)) "="))
  | a :: b :: c :: rest =>
      String (base64_char (a / 4))
        (String (base64_char (a mod 4 * 16 + b / 16))
           (String (base64_char (b mod 16 * 4 + c / 64))
              (String (base64_char (c mod 64)) (toString_base64 rest))))
  end.

(** The value of a base64 digit, of either alphabet. *)
Definition unbase64 (c : ascii) : option N :=
  let n := N_of_ascii c in
  if (65 <=? n) && (n <=? 90) then Some (n - 65)
  else if (97 <=? n) && (n <=? 122) then Some (n - 71)
  else if (48 <=? n) && (n <=? 57) then Some (n + 4)
  else if (n =? 43) || (n =? 45) then Some 62
  else if (n =? 47) || (n =? 95) then Some 63
  else None.

(** The digits of the input: other characters are skipped, and the first
    [=] ends the input. *)
Fixpoint digits (s : string) : list N :=
  match s with
  | EmptyString => []
  | String c s' =>
      if Ascii.eqb c "=" then []
      else match unbase64 c with
           | Some v => v :: digits s'
           | None => digits s'
           end
  end.

Fixpoint of_digits (l : list N) : list N :=
  match l with
  | a :: b :: c :: d :: rest =>
      (a * 4 + b / 16) :: (b mod 16 * 16 + c / 4) :: (c mod 4 * 64 + d)
        :: of_digits rest
  | [a; b; c] => [a * 4 + b / 16; b mod 16 * 16 + c / 4]
  | [a; b] => [a * 4 + b / 16]
  | _ => []
  end.

(** [Buffer.from(s, 'base64')] *)
Definition from_base64 (s : string) : list N := of_digits (digits s).

(** [Buffer.from(s)] *)
Definition from (s : string) : list N := octets s.

(** Text of ASCII characters only. *)
Definition is_ascii (s : string) : Prop := Forall (λ b, b < 128) (octets s).

End Buffer.

(** ** Responses

    [sendResponse res statusCode data] writes the status and the JSON body;
    a handler's result is the pair it was called with. [T] is the shape of a
    task in the body. *)

Inductive payload (T : Type) : Type :=
| ErrorBody (error : string)                               (* { error } *)
| MessageBody (message : string)                           (* { message } *)
| TasksBody (tasks : list T)                               (* [ task, ... ] *)
| CreatedBody (id message : string) (task : option T)      (* { id, message, task } *)
| LoginBody (token : string) (id username : Js.json).      (* { token, user: { id, username } } *)

Arguments ErrorBody {T} error.
Arguments MessageBody {T} message.
Arguments TasksBody {T} tasks.
Arguments CreatedBody {T} id message task.
Arguments LoginBody {T} token id username.

Record response (T : Type) : Type :=
  sendResponse { statusCode : Z; data : payload T }.

Arguments sendResponse {T} statusCode data.
Arguments statusCode {T} r.
Arguments data {T} r.

(** What a handler reads from the environment while it builds a task.
    [Date.now()] is a time value, an integer of at most 8.64e15 in
    magnitude, which prints as its plain digits. *)
Record clock : Type := {
  date_now : Z;            (* Date.now() *)
  random_suffix : string;  (* Math.random().toString(36).substr(2, 9) *)
  iso_first : string;      (* first new Date().toISOString() *)
  iso_second : string      (* second new Date().toISOString() *)
}.

(** [`task_${Date.now()}_${Math.random().toString(36).substr(2, 9)}`] *)
Definition fresh_task_id (c : clock) : string :=
  "task_" +:+ pretty (date_now c) +:+ "_" +:+ random_suffix c.

(** [Array.prototype.findIndex]; [None] stands for -1. *)
Fixpoint findIndex {A : Type} (p : A → bool) (l : list A) : option nat :=
  match l with
  | [] => None
  | x :: l' => if p x then Some O else S <$> findIndex p l'
  end.

(** ** Tasks in JSON files (index.js and part_000)

    A task is the object that [JSON.parse] gives back: a finite map from
    property names to values. A request body is such an object too:
    [getRequestBody] yields the empty object for an empty or unparsable
    payload, and the handlers are embedded for payloads that are JSON
    objects. *)

Module TaskFiles.
Import Js.

Abbreviation object := (gmap string json).

(** The tasks directory: file path to the array stored in the file. *)
Abbreviation files := (gmap string (list (gmap string json))).

Section Files.
(** The user id as it is spliced into the file name. *)
Context {Id : Type} (render : Id → string).

(** [path.join(TASKS_DIR, `tasks_${userId}.json`)]; user ids are decimal
    numbers, for which [path.join] only puts the separator in. *)
Definition getUserTasksFile (userId : Id) : string :=
  "tasks/" +:+ "tasks_" +:+ render userId +:+ ".json".

(** A file that does not exist reads as the empty array. *)
Definition loadUserTasks (fs : files) (userId : Id) : list object :=
  default [] (fs !! getUserTasksFile userId).

Definition saveUserTasks (fs : files) (userId : Id) (tasks : list object)
  : files :=
  <[getUserTasksFile userId := tasks]> fs.

Definition getTasks (fs : files) (userId : Id) : response object * files :=
  let tasks := loadUserTasks fs userId in
  (sendResponse 200 (TasksBody tasks), fs).

Definition createTask (c : clock) (fs : files) (body : object) (userId : Id)
  : response object * files :=
  let text := body !! "text" in
  let priority := body !! "priority" in
  let category := body !! "category" in
  let deadline := body !! "deadline" in
  if negb (truthy text) then
    (sendResponse 400 (ErrorBody "Текст задачи обязателен"), fs)
  else
    match text with
    | Some (JStr s) =>
        if String.eqb (trim s) "" then
          (sendResponse 400 (ErrorBody "Текст задачи обязателен"), fs)
        else
          let tasks := loadUserTasks fs userId in
          let newTask : object :=
            <["id" := JStr (fresh_task_id c)]>
            (<["text" := JStr (trim s)]>
            (<["priority" := or_else priority (JStr "medium")]>
            (<["category" := or_else category (JStr "personal")]>
            (<["deadline" := or_else deadline JNull]>
            (<["completed" := JBool false]>
            (<["created_at" := JStr (iso_first c)]>
            (<["updated_at" := JStr (iso_second c)]> ∅))))))) in
          (sendResponse 201
             (CreatedBody (fresh_task_id c) "Задача успешно создана"
                (Some newTask)),
           saveUserTasks fs userId (tasks ++ [newTask]))
    | _ =>
        (* text.trim is not a function: the TypeError is caught *)
        (sendResponse 500 (ErrorBody "Ошибка сервера"), fs)
    end.

(** [t => t.id === taskId] *)
Definition has_id (taskId : string) (t : object) : bool :=
  strict_eq (t !! "id") (Some (JStr taskId)).

(** [{ ...old, ...body, updated_at: now }] *)
Definition merge (old body : object) (now : string) : object :=
  <["updated_at" := JStr now]> (body ∪ old).

(** [updateTask] of index.js. *)
Definition updateTask (now : string) (fs : files) (body : object)
    (userId : Id) (taskId : string) : response object * files :=
  let tasks := loadUserTasks fs userId in
  match findIndex (has_id taskId) tasks with
  | None => (sendResponse 404 (ErrorBody "Задача не найдена"), fs)
  | Some taskIndex =>
      let updatedTask := merge (tasks !!! taskIndex) body now in
      (sendResponse 200 (MessageBody "Задача обновлена"),
       saveUserTasks fs userId (<[taskIndex := updatedTask]> tasks))
  end.

(** [updateTask] of part_000: as above, then
    [if (body.completed !== undefined)
       updatedTask.completed = Boolean(body.completed)]. *)
Definition updateTask_coercing (now : string) (fs : files) (body : object)
    (userId : Id) (taskId : string) : response object * files :=
  let tasks := loadUserTasks fs userId in
  match findIndex (has_id taskId) tasks with
  | None => (sendResponse 404 (ErrorBody "Задача не найдена"), fs)
  | Some taskIndex =>
      let updatedTask := merge (tasks !!! taskIndex) body now in
      let updatedTask :=
        match body !! "completed" with
        | Some v => <["completed" := JBool (js_truthy v)]> updatedTask
        | None => updatedTask
        end in
      (sendResponse 200 (MessageBody "Задача обновлена"),
       saveUserTasks fs userId (<[taskIndex := updatedTask]> tasks))
  end.

Definition deleteTask (fs : files) (userId : Id) (taskId : string)
  : response object * files :=
  let tasks := loadUserTasks fs userId in
  let filteredTasks := List.filter (λ t, negb (has_id taskId t)) tasks in
  if (length tasks =? length filteredTasks)%nat then
    (sendResponse 404 (ErrorBody "Задача не найдена"), fs)
  else
    (sendResponse 200 (MessageBody "Задача удалена"),
     saveUserTasks fs userId filteredTasks).

(** The four task routes of [handleApiRequest], once [authenticate] has
    resolved the caller. *)
Inductive request : Type :=
| GET_tasks
| POST_tasks (c : clock) (body : object)
| PUT_task (taskId : string) (now : string) (body : object)
| DELETE_task (taskId : string).

(** [coercing] selects the [updateTask] of part_000. *)
Definition handleApiRequest (coercing : bool) (fs : files) (userId : Id)
    (req : request) : response object * files :=
  match req with
  | GET_tasks => getTasks fs userId
  | POST_tasks c body => createTask c fs body userId
  | PUT_task taskId now body =>
      if coercing then updateTask_coercing now fs body userId taskId
      else updateTask now fs body userId taskId
  | DELETE_task taskId => deleteTask fs userId taskId
  end.

(** The server handles a sequence of requests, each with its caller. *)
Fixpoint serve (coercing : bool) (fs : files) (log : list (Id * request))
  : files :=
  match log with
  | [] => fs
  | (userId, req) :: log' =>
      serve coercing (snd (handleApiRequest coercing fs userId req)) log'
  end.

(** The requests of one caller in a sequence. *)
Definition requests_of `{EqDecision Id} (A : Id) (log : list (Id * request))
  : list (Id * request) :=
  List.filter (λ entry, bool_decide (fst entry = A)) log.

End Files.

Arguments request : clear implicits.
Arguments GET_tasks : clear implicits.
Arguments POST_tasks : clear implicits.
Arguments PUT_task : clear implicits.
Arguments DELETE_task : clear implicits.

End TaskFiles.

(** index.js: the id of a user is the string [Date.now().toString()]. *)
Module IndexJs.
Import Js.
Export TaskFiles.

Definition getTasks := getTasks (Id:=string) Datatypes.id.
Definition createTask := createTask (Id:=string) Datatypes.id.
Definition updateTask := updateTask (Id:=string) Datatypes.id.
Definition deleteTask := deleteTask (Id:=string) Datatypes.id.

(** *** Credentials: the array kept in users.json *)

Record user : Type := {
  id : string;          (* Date.now().toString() *)
  username : json;
  email : json;
  password : string;    (* the bcrypt hash *)
  created_at : string
}.

(** What [authenticate] resolves to. *)
Record identity : Type := { userId : string; name : json }.

(** [s.startsWith(p)] and [s.slice(n)] *)
Definition startsWith (p s : string) : bool :=
  bool_decide
    (is_Some (strip_prefix (String.list_ascii_of_string p)
                (String.list_ascii_of_string s))).

Fixpoint slice (n : nat) (s : string) : string :=
  match n, s with
  | S n', String _ s' => slice n' s'
  | _, _ => s
  end.

(** [s.split(sep)] for a separator of one character. *)
Fixpoint split (sep : ascii) (s : string) : list string :=
  match s with
  | EmptyString => [EmptyString]
  | String c s' =>
      if Ascii.eqb c sep then EmptyString :: split sep s'
      else match split sep s' with
           | w :: ws => String c w :: ws
           | [] => [String c EmptyString]
           end
  end.

(** Text without a colon. *)
Definition no_colon (s : string) : Prop :=
  Forall (λ c, c ≠ ":"%char) (String.list_ascii_of_string s).

(** [Buffer.from(`${user.id}:${username}`).toString('base64')] *)
Definition issue_token (id : string) (username : json) : string :=
  Buffer.toString_base64 (Buffer.from (id +:+ ":" +:+ ToString username)).

Section Credentials.
(** [bcrypt.hash(password, 10)] and [bcrypt.compare(password, hash)];
    [None] when the promise is rejected. *)
Variable bcrypt_hash : json → option string.
Variable bcrypt_compare : json → string → option bool.

Definition handleRegister (c : clock) (users : list user) (body : object)
  : response object * list user :=
  match body !! "username", body !! "email", body !! "password" with
  | Some body_username, Some body_email, Some body_password =>
      if negb (js_truthy body_username) || negb (js_truthy body_email)
         || negb (js_truthy body_password) then
        (sendResponse 400 (ErrorBody "Все поля обязательны"), users)
      else if existsb
                (λ u, strict_eq (Some (username u)) (Some body_username)
                      || strict_eq (Some (email u)) (Some body_email))
                users then
        (sendResponse 400 (ErrorBody "Пользователь уже существует"), users)
      else
        match bcrypt_hash body_password with
        | Some hashedPassword =>
            let newUser := {| id := pretty (date_now c);
                              username := body_username;
                              email := body_email;
                              password := hashedPassword;
                              created_at := iso_first c |} in
            (sendResponse 201 (MessageBody "Пользователь создан успешно"),
             users ++ [newUser])
        | None => (sendResponse 500 (ErrorBody "Ошибка сервера"), users)
        end
  | _, _, _ =>
      (* a missing field is undefined *)
      (sendResponse 400 (ErrorBody "Все поля обязательны"), users)
  end.

Definition handleLogin (users : list user) (body : object)
  : response object :=
  match body !! "username", body !! "password" with
  | Some body_username, Some body_password =>
      if negb (js_truthy body_username) || negb (js_truthy body_password)
      then sendResponse 400 (ErrorBody "Логин и пароль обязательны")
      else
        match List.find
                (λ u, strict_eq (Some (username u)) (Some body_username))
                users with
        | None => sendResponse 400 (ErrorBody "Неверные данные")
        | Some user =>
            match bcrypt_compare body_password (password user) with
            | Some false => sendResponse 400 (ErrorBody "Неверные данные")
            | Some true =>
                let token := issue_token (id user) body_username in
                sendResponse 200
                  (LoginBody token (JStr (id user)) (username user))
            | None => sendResponse 500 (ErrorBody "Ошибка сервера")
            end
        end
  | _, _ => sendResponse 400 (ErrorBody "Логин и пароль обязательны")
  end.
End Credentials.

(** [authenticate]; the argument is [req.headers.authorization]. *)
Definition authenticate (users : list user) (authorization : option string)
  : option identity :=
  match authorization with
  | None => None
  | Some authHeader =>
      if negb (startsWith "Basic " authHeader) then None
      else
        let token := slice 6 authHeader in
        let decoded := Buffer.toString_utf8 (Buffer.from_base64 token) in
        let parts := split ":" decoded in
        let userId := JStr <$> parts !! 0%nat in
        let username_ := JStr <$> parts !! 1%nat in
        match List.find
                (λ u, strict_eq (Some (JStr (id u))) userId
                      && strict_eq (Some (username u)) username_)
                users with
        | Some user => Some {| userId := id user; name := username user |}
        | None => None
        end
  end.

End IndexJs.

(** part_000: the id of a user is the integer key of its row, a number
    that the template literal of the file name prints. *)
Module Part000.
Import Js.
Export TaskFiles.

Definition getTasks := getTasks (Id:=Z) Number_toString.
Definition createTask := createTask (Id:=Z) Number_toString.
Definition updateTask := updateTask_coercing (Id:=Z) Number_toString.
Definition deleteTask := deleteTask (Id:=Z) Number_toString.

End Part000.

(** ** Tasks in SQLite (part_001) *)

Module Part001.
Import Js.

Abbreviation object := (gmap string json).

(** A row of the table [tasks]; [id] is its primary key. *)
Record task_row : Type := {
  id : string;
  user_id : Z;
  text : string;
  completed : Z;
  priority : string;
  category : string;
  deadline : option string;
  created_at : string;
  updated_at : string
}.

(** The table, in rowid order. *)
Definition table := list task_row.

(** The row object that [db.all] hands to the callback, after
    [{ ...task, completed: Boolean(task.completed) }]. *)
Definition format_row (r : task_row) : object :=
  <["id" := JStr (id r)]>
  (<["user_id" := JNum (user_id r)]>
  (<["text" := JStr (text r)]>
  (<["completed" := JBool (negb (completed r =? 0))]>
  (<["priority" := JStr (priority r)]>
  (<["category" := JStr (category r)]>
  (<["deadline" := from_option JStr JNull (deadline r)]>
  (<["created_at" := JStr (created_at r)]>
  (<["updated_at" := JStr (updated_at r)]> ∅)))))))).

(** [ORDER BY created_at DESC]: a row comes before the rows with a smaller
    or equal time stamp (rows with equal stamps keep their rowid order). *)
Definition newer_first (a b : task_row) : Prop :=
  String.le (created_at b) (created_at a).

#[export] Instance newer_first_dec : RelDecision newer_first.
Proof. intros a b. unfold newer_first. apply _. Defined.

(** Puts [x], which has a smaller rowid than the rows of [rows], at its
    place among them: before the first row that is not newer than [x]. *)
Fixpoint insert_row (x : task_row) (rows : list task_row) : list task_row :=
  match rows with
  | [] => [x]
  | y :: rows' =>
      if decide (newer_first x y) then x :: rows else y :: insert_row x rows'
  end.

(** The sorter: a stable sort of rows that come in rowid order. *)
Definition order_by_created_at_desc (rows : list task_row) : list task_row :=
  foldr insert_row [] rows.

(** [SELECT * FROM tasks WHERE user_id = ? ORDER BY created_at DESC] *)
Definition select_tasks (db : table) (userId : Z) : list task_row :=
  order_by_created_at_desc (List.filter (λ r, user_id r =? userId) db).

Definition getTasks (db : table) (userId : Z) : response object * table :=
  let tasks := select_tasks db userId in
  let formattedTasks := map format_row tasks in
  (sendResponse 200 (TasksBody formattedTasks), db).

Definition includes (l : list string) (s : string) : bool :=
  existsb (String.eqb s) l.

Definition validPriorities : list string := ["low"; "medium"; "high"].
Definition validCategories : list string :=
  ["personal"; "work"; "shopping"; "health"].

Definition is_digit (c : ascii) : bool :=
  (48 <=? Z.of_N (N_of_ascii c)) && (Z.of_N (N_of_ascii c) <=? 57).

Definition is_dash (c : ascii) : bool := Ascii.eqb c "-".

(** A string matches a sequence of character classes from its first to its
    last character. *)
Fixpoint matches (classes : list (ascii → bool)) (s : string) : bool :=
  match classes, s with
  | [], EmptyString => true
  | p :: classes', String c s' => p c && matches classes' s'
  | _, _ => false
  end.

(** [/^\d{4}-\d{2}-\d{2}$/.test(s)] *)
Definition dateRegex_test (s : string) : bool :=
  matches [is_digit; is_digit; is_digit; is_digit; is_dash;
           is_digit; is_digit; is_dash; is_digit; is_digit] s.

(** [INSERT INTO tasks (id, user_id, text, priority, category, deadline)]:
    the primary key rejects an id that is already in the table; [completed]
    and the two time stamps take their column defaults. *)
Definition insert_task (current_timestamp : string) (db : table)
    (taskId : string) (userId : Z) (text priority category : string)
    (deadline : option string) : option table :=
  if existsb (λ r, String.eqb (id r) taskId) db then None
  else Some (db ++ [ {| id := taskId; user_id := userId; text := text;
                        completed := 0; priority := priority;
                        category := category; deadline := deadline;
                        created_at := current_timestamp;
                        updated_at := current_timestamp |} ]).

(** One of the four [String(...)] calls that build [taskData] throws. *)
Definition createTask_throws (body : object) : bool :=
  String_throws (or_else (body !! "text") (JStr ""))
  || String_throws (or_else (body !! "priority") (JStr "medium"))
  || String_throws (or_else (body !! "category") (JStr "personal"))
  || (truthy (body !! "deadline")
      && from_option String_throws false (body !! "deadline")).

(** [createTask]; [userId] is the integer [user.id] of the authenticated
    row, which [parseInt] leaves as it is. *)
Definition createTask (c : clock) (current_timestamp : string) (db : table)
    (body : object) (userId : Z) : response object * table :=
  if createTask_throws body then
    (* the TypeError is caught *)
    (sendResponse 500 (ErrorBody "Внутренняя ошибка сервера"), db)
  else
  let text := trim (ToString (or_else (body !! "text") (JStr ""))) in
  let priority := ToString (or_else (body !! "priority") (JStr "medium")) in
  let category := ToString (or_else (body !! "category") (JStr "personal")) in
  let deadline :=
    if truthy (body !! "deadline")
    then Some (ToString_value (body !! "deadline")) else None in
  if String.eqb text "" then
    (sendResponse 400 (ErrorBody "Текст задачи обязателен"), db)
  else
    let priority :=
      if includes validPriorities priority then priority else "medium" in
    let category :=
      if includes validCategories category then category else "personal" in
    let deadline :=
      match deadline with
      | Some d =>
          if String.eqb d "" then Some d          (* if (taskData.deadline) *)
          else if dateRegex_test d then Some d else None
      | None => None
      end in
    let taskId := fresh_task_id c in
    match insert_task current_timestamp db taskId userId
            text priority category deadline with
    | Some db' =>
        (sendResponse 201 (CreatedBody taskId "Задача успешно создана" None),
         db')
    | None =>
        (* SQLITE_CONSTRAINT, which is not SQLITE_MISMATCH *)
        (sendResponse 500 (ErrorBody "Ошибка при создании задачи"), db)
    end.

(** [createTask] for whatever [getRequestBody] resolves to: reading a
    property of [null] throws, an object has its own properties (the last
    one of a name counts), and a string, a number, a boolean or an array has
    none of the four properties that are read. *)
Definition createTask_payload (c : clock) (current_timestamp : string)
    (db : table) (payload : json) (userId : Z) : response object * table :=
  match payload with
  | JNull => (sendResponse 500 (ErrorBody "Внутренняя ошибка сервера"), db)
  | JObj props =>
      createTask c current_timestamp db (list_to_map (reverse props)) userId
  | _ => createTask c current_timestamp db ∅ userId
  end.

(** A row of the table [users]. *)
Record user_row : Type := {
  u_id : Z;
  u_username : string;
  u_email : string;
  u_password : string;
  u_created_at : string
}.

(** What [db.get] passes to its callback: [(err, user)]. *)
Inductive db_get_result : Type :=
| DbError
| NoRow
| Row (user : user_row).

Section Login.
(** [db.get('SELECT * FROM users WHERE username = ?', [username], ...)] *)
Variable select_user : json → db_get_result.
Variable bcrypt_compare : json → string → option bool.

(** [handleLogin]; [None] when no response is sent (a rejected
    [bcrypt.compare] and a template literal that throws are not handled in
    the callback). *)
Definition handleLogin (body : object) : option (response object) :=
  match body !! "username", body !! "password" with
  | Some body_username, Some body_password =>
      if negb (js_truthy body_username) || negb (js_truthy body_password)
      then Some (sendResponse 400 (ErrorBody "Логин и пароль обязательны"))
      else
        match select_user body_username with
        | DbError => Some (sendResponse 400 (ErrorBody "Неверные данные"))
        | NoRow => Some (sendResponse 400 (ErrorBody "Неверные данные"))
        | Row user =>
            match bcrypt_compare body_password (u_password user) with
            | Some false =>
                Some (sendResponse 400 (ErrorBody "Неверные данные"))
            | Some true =>
                if String_throws body_username then None
                else
                let token :=
                  Buffer.toString_base64
                    (Buffer.from (Number_toString (u_id user) +:+ ":"
                                  +:+ ToString body_username)) in
                Some (sendResponse 200
                        (LoginBody token (JNum (u_id user))
                           (JStr (u_username user))))
            | None => None
            end
        end
  | _, _ => Some (sendResponse 400 (ErrorBody "Логин и пароль обязательны"))
  end.
End Login.

Section Update.
(** [new Date(x).toISOString().split('T')[0]]; [None] when the date is
    invalid and [toISOString] throws a RangeError. *)
Variable toISODate : json → option string.

Record task_data : Type := {
  td_text : string;
  td_priority : string;
  td_category : string;
  td_deadline : option string
}.

(** One of the [String(...)] calls of [sanitizeTaskData] throws. *)
Definition sanitize_throws (data : object) : bool :=
  String_throws (or_else (data !! "text") (JStr ""))
  || from_option String_throws false (data !! "priority")
  || from_option String_throws false (data !! "category").

(** [sanitizeTaskData]; [None] when it throws. *)
Definition sanitizeTaskData (data : object) : option task_data :=
  if sanitize_throws data then None else
  let text := trim (ToString (or_else (data !! "text") (JStr ""))) in
  let priority :=
    if includes validPriorities (ToString_value (data !! "priority"))
    then ToString_value (data !! "priority") else "medium" in
  let category :=
    if includes validCategories (ToString_value (data !! "category"))
    then ToString_value (data !! "category") else "personal" in
  match data !! "deadline" with
  | Some d =>
      if js_truthy d then
        match toISODate d with
        | Some day =>
            Some {| td_text := text; td_priority := priority;
                    td_category := category; td_deadline := Some day |}
        | None => None
        end
      else Some {| td_text := text; td_priority := priority;
                   td_category := category; td_deadline := None |}
  | None => Some {| td_text := text; td_priority := priority;
                    td_category := category; td_deadline := None |}
  end.

(** [WHERE id = ? AND user_id = ?] *)
Definition selected (taskId : string) (userId : Z) (r : task_row) : bool :=
  String.eqb (id r) taskId && (user_id r =? userId).

(** [UPDATE tasks SET text = ?, completed = ?, priority = ?, category = ?,
    deadline = ?, updated_at = CURRENT_TIMESTAMP WHERE id = ? AND
    user_id = ?], with the number of rows changed. *)
Definition update_task (current_timestamp : string) (db : table)
    (d : task_data) (completedInt : Z) (taskId : string) (userId : Z)
  : table * nat :=
  (map (λ r, if selected taskId userId r
             then {| id := id r; user_id := user_id r;
                     text := td_text d; completed := completedInt;
                     priority := td_priority d; category := td_category d;
                     deadline := td_deadline d;
                     created_at := created_at r;
                     updated_at := current_timestamp |}
             else r) db,
   length (List.filter (selected taskId userId) db)).

Definition updateTask (current_timestamp : string) (db : table)
    (body : object) (userId : Z) (taskId : string)
  : response object * table :=
  match sanitizeTaskData body with
  | None =>
      (sendResponse 500 (ErrorBody "Внутренняя ошибка сервера"), db)
  | Some sanitizedData =>
      let completedInt := if truthy (body !! "completed") then 1 else 0 in
      let '(db', changes) :=
        update_task current_timestamp db sanitizedData completedInt
          taskId userId in
      if (changes =? 0)%nat then
        (sendResponse 404 (ErrorBody "Задача не найдена"), db')
      else (sendResponse 200 (MessageBody "Задача обновлена"), db')
  end.
End Update.

(** [DELETE FROM tasks WHERE id = ? AND user_id = ?], with the number of
    rows changed. *)
Definition delete_task (db : table) (taskId : string) (userId : Z)
  : table * nat :=
  (List.filter (λ r, negb (selected taskId userId r)) db,
   length (List.filter (selected taskId userId) db)).

Definition deleteTask (db : table) (userId : Z) (taskId : string)
  : response object * table :=
  let '(db', changes) := delete_task db taskId userId in
  if (changes =? 0)%nat then
    (sendResponse 404 (ErrorBody "Задача не найдена"), db')
  else (sendResponse 200 (MessageBody "Задача удалена"), db').

(** The tables that a run of the server can hold: it starts empty, and
    every request of an authenticated user goes through a handler. *)
Inductive reachable : table → Prop :=
| reachable_empty : reachable []
| reachable_create c current_timestamp db body userId :
    reachable db →
    reachable (snd (createTask c current_timestamp db body userId))
| reachable_update toISODate current_timestamp db body userId taskId :
    reachable db →
    reachable
      (snd (updateTask toISODate current_timestamp db body userId taskId))
| reachable_delete db userId taskId :
    reachable db → reachable (snd (deleteTask db userId taskId)).

End Part001.

(** ** The text of a stored task *)

Module Text.
Import Js.

(** A non-empty string that [trim] leaves as it is. *)
Definition trimmed_nonempty (s : string) : bool :=
  negb (String.eqb s "") && String.eqb (trim s) s.

(** A task object whose [text] is such a string. *)
Definition has_text (t : gmap string json) : bool :=
  match t !! "text" with
  | Some (JStr s) => trimmed_nonempty s
  | _ => false
  end.

Definition files_ok (fs : TaskFiles.files) : Prop :=
  map_Forall (λ _ tasks, Forall (λ t, has_text t = true) tasks) fs.

Definition table_ok (db : Part001.table) : Prop :=
  Forall (λ r, trimmed_nonempty (Part001.text r) = true) db.

(** The [text] of a request body is missing, empty or white space only. *)
Definition blank (v : value) : bool :=
  match v with
  | None => true
  | Some (JStr s) => String.eqb (trim s) ""
  | Some _ => false
  end.

End Text.

(** ** Sample data *)

Module Sample.
Import Js.

Definition alice : string := "1700000000001".
Definition bob : string := "1700000000002".

Definition clock_bob : clock :=
  {| date_now := 1700000000100; random_suffix := "bob";
     iso_first := "2023-11-14T22:13:20.100Z";
     iso_second := "2023-11-14T22:13:20.100Z" |}.

Definition clock_alice : clock :=
  {| date_now := 1700000000200; random_suffix := "alice";
     iso_first := "2023-11-14T22:13:20.200Z";
     iso_second := "2023-11-14T22:13:20.200Z" |}.

Definition pay_rent : gmap string json := {[ "text" := JStr "pay rent" ]}.
Definition buy_milk : gmap string json := {[ "text" := JStr "Buy milk" ]}.

(** The files after bob and then alice have created one task each. *)
Definition two_files : TaskFiles.files :=
  snd (IndexJs.createTask clock_alice
         (snd (IndexJs.createTask clock_bob ∅ pay_rent bob))
         buy_milk alice).

(** The task of alice in [two_files]. *)
Definition task_alice : gmap string json :=
  <["id" := JStr "task_1700000000200_alice"]>
  (<["text" := JStr "Buy milk"]>
  (<["priority" := JStr "medium"]>
  (<["category" := JStr "personal"]>
  (<["deadline" := JNull]>
  (<["completed" := JBool false]>
  (<["created_at" := JStr "2023-11-14T22:13:20.200Z"]>
  (<["updated_at" := JStr "2023-11-14T22:13:20.200Z"]> ∅))))))).

(** The row that [Part001.createTask] stores for user 2 and [pay_rent]. *)
Definition row_bob : Part001.task_row :=
  {| Part001.id := "task_1700000000100_bob"; Part001.user_id := 2;
     Part001.text := "pay rent"; Part001.completed := 0;
     Part001.priority := "medium"; Part001.category := "personal";
     Part001.deadline := None;
     Part001.created_at := "2023-11-14 22:13:20";
     Part001.updated_at := "2023-11-14 22:13:20" |}.

Definition row_alice : Part001.task_row :=
  {| Part001.id := "task_1700000000200_alice"; Part001.user_id := 1;
     Part001.text := "Buy milk"; Part001.completed := 0;
     Part001.priority := "high"; Part001.category := "shopping";
     Part001.deadline := Some "2023-12-01";
     Part001.created_at := "2023-11-14 22:13:21";
     Part001.updated_at := "2023-11-14 22:13:21" |}.

(** A stand-in for bcrypt in the samples: like bcryptjs it rejects a
    password that is not a string. *)
Definition toy_hash (p : json) : option string :=
  match p with
  | JStr s => Some ("$2a$10$" +:+ s)
  | _ => None
  end.

Definition toy_compare (p : json) (hash : string) : option bool :=
  match p with
  | JStr s => Some (String.eqb ("$2a$10$" +:+ s) hash)
  | _ => None
  end.

Definition user_alice : IndexJs.user :=
  {| IndexJs.id := "1700000000001"; IndexJs.username := JStr "alice";
     IndexJs.email := JStr "alice@example.org";
     IndexJs.password := "$2a$10$wonderland";
     IndexJs.created_at := "2023-11-14T22:13:20.001Z" |}.

(** A user whose name has a colon in it. *)
Definition user_a_b : IndexJs.user :=
  {| IndexJs.id := "1700000000100"; IndexJs.username := JStr "a:b";
     IndexJs.email := JStr "ab@example.org";
     IndexJs.password := "$2a$10$secret";
     IndexJs.created_at := "2023-11-14T22:13:20.100Z" |}.

Definition row_user_alice : Part001.user_row :=
  {| Part001.u_id := 1; Part001.u_username := "alice";
     Part001.u_email := "alice@example.org";
     Part001.u_password := "$2a$10$wonderland";
     Part001.u_created_at := "2023-11-14 22:13:20" |}.

(** The table [users] with that one row, looked up by a string. *)
Definition select_alice (name : json) : Part001.db_get_result :=
  match name with
  | JStr "alice" => Part001.Row row_user_alice
  | _ => Part001.NoRow
  end.

End Sample.

(** ** The server of index.js: routes and static pages *)

Module Server.
Import Js TaskFiles.

(** What the server keeps between requests: users.json and the tasks
    directory. *)
Record state : Type := {
  users : list IndexJs.user;
  tasks : files
}.

(** What the request handlers read of a request; [pathname] is
    [url.parse(req.url, true).pathname]. *)
Record http_request : Type := {
  method : string;
  pathname : string;
  authorization : option string;
  body : object
}.

(** What goes back to the client. *)
Inductive reply : Type :=
| Json (r : response object)          (* sendResponse(res, status, data) *)
| Empty (status : Z)                  (* res.writeHead(status); res.end() *)
| Content (status : Z) (contentType : option string) (content : string)
                                      (* res.writeHead(..); res.end(content) *)
| NoReply.                            (* the handler returns without answering *)

Definition chars_of (s : string) : list ascii := String.list_ascii_of_string s.

(** [s.endsWith(suffix)] *)
Definition endsWith (suffix s : string) : bool :=
  bool_decide
    (is_Some (strip_prefix (rev (chars_of suffix)) (rev (chars_of s)))).

(** [list.includes(s)] *)
Definition includes (l : list string) (s : string) : bool :=
  existsb (String.eqb s) l.

Fixpoint drop_slashes (l : list ascii) : list ascii :=
  match l with
  | c :: l' => if Ascii.eqb c "/" then drop_slashes l' else l
  | [] => []
  end.

Fixpoint until_slash (l : list ascii) : list ascii :=
  match l with
  | c :: l' => if Ascii.eqb c "/" then [] else c :: until_slash l'
  | [] => []
  end.

(** Cuts a reversed base name at its last dot: the characters after the dot
    and those before it, both still reversed. *)
Fixpoint cut_at_dot (l : list ascii) : option (list ascii * list ascii) :=
  match l with
  | [] => None
  | c :: l' =>
      if Ascii.eqb c "." then Some ([], l')
      else match cut_at_dot l' with
           | Some (ext, before) => Some (c :: ext, before)
           | None => None
           end
  end.

(** [path.extname]: the part of the last path segment from its last dot on;
    empty when there is no dot, when the dot is the first character of the
    segment, and for the segment [..]. *)
Definition extname (path : string) : string :=
  let base := until_slash (drop_slashes (rev (chars_of path))) in
  match cut_at_dot base with
  | None => ""
  | Some (ext, before) =>
      match before, ext with
      | [], _ => ""
      | [c], [] => if Ascii.eqb c "." then "" else "."
      | _, _ => String.string_of_list_ascii ("."%char :: rev ext)
      end
  end.

Section Handlers.
Variable bcrypt_hash : json → option string.
Variable bcrypt_compare : json → string → option bool.
(** [fs.readFile(filePath)]: the content of a file of the site, or [None]
    when reading fails. *)
Variable disk : string → option string.

(** [serveFile(res, filePath, contentType = null)] *)
Definition serveFile (filePath : string) (contentType : option string)
  : reply :=
  let contentType :=
    match contentType with
    | Some t => t
    | None =>
        let ext := extname filePath in
        if String.eqb ext ".css" then "text/css"
        else if String.eqb ext ".js" then "text/javascript"
        else if String.eqb ext ".json" then "application/json"
        else "text/html"
    end in
  match disk filePath with
  | None => Content 404 None "File not found"
  | Some content => Content 200 (Some contentType) content
  end.

(** [handleApiRequest(req, res, pathname)] of index.js. The clock gives the
    time stamps of the one handler that runs. *)
Definition handleApiRequest (c : clock) (st : state) (req : http_request)
  : reply * state :=
  if String.eqb (pathname req) "/api/register"
     && String.eqb (method req) "POST" then
    let '(res, users') :=
      IndexJs.handleRegister bcrypt_hash c (users st) (body req) in
    (Json res, {| users := users'; tasks := tasks st |})
  else if String.eqb (pathname req) "/api/login"
          && String.eqb (method req) "POST" then
    (Json (IndexJs.handleLogin bcrypt_compare (users st) (body req)), st)
  else if String.eqb (pathname req) "/api/tasks" then
    match IndexJs.authenticate (users st) (authorization req) with
    | None => (Json (sendResponse 401 (ErrorBody "Не авторизован")), st)
    | Some auth =>
        if String.eqb (method req) "GET" then
          let '(res, tasks') :=
            IndexJs.getTasks (tasks st) (IndexJs.userId auth) in
          (Json res, {| users := users st; tasks := tasks' |})
        else if String.eqb (method req) "POST" then
          let '(res, tasks') :=
            IndexJs.createTask c (tasks st) (body req)
              (IndexJs.userId auth) in
          (Json res, {| users := users st; tasks := tasks' |})
        else (NoReply, st)
    end
  else if IndexJs.startsWith "/api/tasks/" (pathname req) then
    match IndexJs.authenticate (users st) (authorization req) with
    | None => (Json (sendResponse 401 (ErrorBody "Не авторизован")), st)
    | Some auth =>
        (* pathname.split('/')[3]: the prefix gives at least four parts *)
        let taskId := default "" (IndexJs.split "/" (pathname req) !! 3%nat) in
        if String.eqb (method req) "PUT" then
          let '(res, tasks') :=
            IndexJs.updateTask (iso_first c) (tasks st) (body req)
              (IndexJs.userId auth) taskId in
          (Json res, {| users := users st; tasks := tasks' |})
        else if String.eqb (method req) "DELETE" then
          let '(res, tasks') :=
            IndexJs.deleteTask (tasks st) (IndexJs.userId auth) taskId in
          (Json res, {| users := users st; tasks := tasks' |})
        else (NoReply, st)
    end
  else (Json (sendResponse 404 (ErrorBody "Не найдено")), st).

(** [handleStaticFiles(req, res)] *)
Definition handleStaticFiles (c : clock) (st : state) (req : http_request)
  : reply * state :=
  let pathname := pathname req in
  if IndexJs.startsWith "/api/" pathname then handleApiRequest c st req
  else if String.eqb pathname "/" then (serveFile "pages/reg.html" None, st)
  else if String.eqb pathname "/index.html"
          || String.eqb pathname "/main.html"
          || String.eqb pathname "/tasks" then
    (serveFile "pages/index.html" None, st)
  else if IndexJs.startsWith "/style/" pathname then
    (serveFile ("." +:+ pathname) (Some "text/css"), st)
  else if endsWith ".html" pathname
          || includes ["/log"; "/reg"; "/pravila"; "/plata"] pathname then
    let filePath := "pages" +:+ pathname in
    let filePath :=
      if negb (endsWith ".html" filePath) then filePath +:+ ".html"
      else filePath in
    (serveFile filePath None, st)
  else (serveFile "pages/404.html" None, st).

(** The callback of [http.createServer]. Every answer carries the three
    Access-Control-Allow headers, which are set first. *)
Definition server (c : clock) (st : state) (req : http_request)
  : reply * state :=
  if String.eqb (method req) "OPTIONS" then (Empty 200, st)
  else if IndexJs.startsWith "/api/" (pathname req) then
    handleApiRequest c st req
  else handleStaticFiles c st req.

End Handlers.


End Server.

(** * Properties *)

(** ** Lists *)

Section ListFacts.
Context {A : Type} (p : A → bool).

Lemma findIndex_None (l : list A) :
  findIndex p l = None ↔ ∀ x, x ∈ l → p x = false.
Proof.
  induction l as [|x l IH]; simpl.
  - split; [intros _ y Hy; inversion Hy | done].
  - destruct (p x) eqn:Hx.
    + split; [done|]. intros H. specialize (H x (list_elem_of_here _ _)).
      congruence.
    + destruct (findIndex p l) as [i|] eqn:Hl; simpl.
      * split; [done|]. intros H.
        assert (Some i = None) as Hn; [|done].
        apply IH. intros y Hy. apply H. by constructor.
      * split; [|done]. intros _ y Hy.
        apply elem_of_cons in Hy as [->|Hy]; [done|].
        by apply IH.
Qed.

Lemma filter_length_le (l : list A) :
  (length (List.filter p l) ≤ length l)%nat.
Proof. induction l as [|x l IH]; simpl; [lia|]. destruct (p x); simpl; lia. Qed.

Lemma filter_length_eq (l : list A) :
  length (List.filter p l) = length l ↔ ∀ x, x ∈ l → p x = true.
Proof.
  induction l as [|x l IH]; simpl.
  - split; [intros _ y Hy; inversion Hy | done].
  - destruct (p x) eqn:Hx; simpl.
    + split.
      * intros H y Hy. apply elem_of_cons in Hy as [->|Hy]; [done|].
        apply IH; [lia|done].
      * intros H. f_equal. apply IH. intros y Hy. apply H. by constructor.
    + split.
      * intros H. pose proof (filter_length_le l). lia.
      * intros H. specialize (H x (list_elem_of_here _ _)). congruence.
Qed.

Lemma filter_all (l : list A) :
  (∀ x, x ∈ l → p x = true) → List.filter p l = l.
Proof.
  induction l as [|x l IH]; intros H; simpl; [done|].
  rewrite (H x (list_elem_of_here _ _)). f_equal. apply IH.
  intros y Hy. apply H. by constructor.
Qed.

Lemma elem_of_filter_bool (l : list A) (x : A) :
  x ∈ List.filter p l ↔ x ∈ l ∧ p x = true.
Proof. rewrite !list_elem_of_In. apply List.filter_In. Qed.
End ListFacts.

(** ** Strings *)

Lemma append_inj_l (s1 s2 t : string) : s1 +:+ t = s2 +:+ t → s1 = s2.
Proof.
  assert (Hlen : ∀ a b, String.length (a +:+ b)
                        = (String.length a + String.length b)%nat).
  { intros a b. induction a as [|c a IH]; simpl; [done|].
    unfold String.app in *. simpl. by rewrite IH. }
  revert s2. induction s1 as [|c s1 IH]; intros [|d s2] H.
  - done.
  - apply (f_equal String.length) in H. rewrite !Hlen in H. simpl in H. lia.
  - apply (f_equal String.length) in H. rewrite !Hlen in H. simpl in H. lia.
  - unfold String.app in H. simpl in H. injection H as -> H.
    f_equal. by apply IH.
Qed.

(** *** [trim] yields a trimmed string *)

Section Strip.
Import Js.
Variable ws : list (list ascii).
Hypothesis ws_nonempty : Forall (λ w, w ≠ []) ws.

Lemma strip_prefix_Some (w s r : list ascii) :
  strip_prefix w s = Some r → s = w ++ r.
Proof.
  revert s. induction w as [|a w IH]; intros [|b s]; simpl; try done.
  - by intros [= ->].
  - by intros [= ->].
  - destruct (Ascii.eqb a b) eqn:E; [|done].
    apply Ascii.eqb_eq in E as ->. intros H. f_equal. by apply IH.
Qed.

Lemma strip_prefix_app (w u v r : list ascii) :
  strip_prefix w u = Some r → strip_prefix w (u ++ v) = Some (r ++ v).
Proof.
  revert u. induction w as [|a w IH]; intros [|b u]; simpl; try done.
  - by intros [= <-].
  - by intros [= <-].
  - destruct (Ascii.eqb a b); [apply IH|done].
Qed.

Lemma strip_one_Some (l : list (list ascii)) (s r : list ascii) :
  strip_one l s = Some r → ∃ w, w ∈ l ∧ s = w ++ r.
Proof.
  induction l as [|w l IH]; simpl; [done|].
  destruct (strip_prefix w s) as [r'|] eqn:E.
  - intros [= <-]. exists w. split; [by constructor|].
    by apply strip_prefix_Some.
  - intros H. destruct (IH H) as (w' & Hw' & ->).
    exists w'. split; [by constructor|done].
Qed.

Lemma strip_one_shorter (s r : list ascii) :
  strip_one ws s = Some r → (length r < length s)%nat.
Proof.
  intros (w & Hw & ->)%strip_one_Some. rewrite length_app.
  rewrite Forall_forall in ws_nonempty. specialize (ws_nonempty w Hw).
  destruct w; [done|]. simpl. lia.
Qed.

Lemma strip_one_app (l : list (list ascii)) (u v : list ascii) :
  is_Some (strip_one l u) → is_Some (strip_one l (u ++ v)).
Proof.
  induction l as [|w l IH]; simpl; [done|].
  destruct (strip_prefix w (u ++ v)) as [r'|] eqn:E; [eauto|].
  destruct (strip_prefix w u) as [r|] eqn:Eu; [|done].
  apply (strip_prefix_app _ _ v) in Eu. congruence.
Qed.

Lemma strip_many_fixed (fuel : nat) (s : list ascii) :
  strip_one ws s = None → strip_many ws fuel s = s.
Proof. intros H. destruct fuel; simpl; [done|]. by rewrite H. Qed.

Lemma strip_many_done (fuel : nat) (s : list ascii) :
  (length s ≤ fuel)%nat → strip_one ws (strip_many ws fuel s) = None.
Proof.
  revert s. induction fuel as [|fuel IH]; intros s Hlen; simpl.
  - destruct (strip_one ws s) as [r|] eqn:E; [|done].
    apply strip_one_shorter in E. lia.
  - destruct (strip_one ws s) as [r|] eqn:E; [|done].
    apply IH. apply strip_one_shorter in E. lia.
Qed.

Lemma strip_many_suffix (fuel : nat) (s : list ascii) :
  ∃ p, s = p ++ strip_many ws fuel s.
Proof.
  revert s. induction fuel as [|fuel IH]; intros s; simpl.
  - by exists [].
  - destruct (strip_one ws s) as [r|] eqn:E; [|by exists []].
    apply strip_one_Some in E as (w & _ & ->).
    destruct (IH r) as [p Hp]. exists (w ++ p).
    by rewrite <- app_assoc, <- Hp.
Qed.

Lemma strip_start_done (s : list ascii) :
  strip_one ws (strip_start ws s) = None.
Proof. by apply strip_many_done. Qed.

Lemma strip_start_fixed (s : list ascii) :
  strip_one ws s = None → strip_start ws s = s.
Proof. apply strip_many_fixed. Qed.
End Strip.

Lemma rev_table_nonempty (ws : list (list ascii)) :
  Forall (λ w, w ≠ []) ws → Forall (λ w, w ≠ []) (map (@rev ascii) ws).
Proof.
  intros H. apply Forall_forall. intros w Hw.
  apply list_elem_of_fmap in Hw as (w' & -> & Hw').
  rewrite Forall_forall in H. specialize (H w' Hw').
  intros Hrev. apply H. apply (f_equal (@rev ascii)) in Hrev.
  by rewrite rev_involutive in Hrev.
Qed.

Lemma strip_both_fixed (ws : list (list ascii)) (s : list ascii) :
  Forall (λ w, w ≠ []) ws →
  let u := Js.strip_end ws (Js.strip_start ws s) in
  Js.strip_end ws (Js.strip_start ws u) = u.
Proof.
  intros Hws u. pose proof (rev_table_nonempty ws Hws) as Hws'.
  set (t := Js.strip_start ws s) in *.
  set (x := Js.strip_start (map (@rev ascii) ws) (rev t)).
  assert (Hu : u = rev x) by done.
  assert (Hstart : Js.strip_start ws u = u).
  { apply strip_start_fixed.
    destruct (Js.strip_one ws u) as [r|] eqn:E; [|done].
    destruct (strip_many_suffix (map (@rev ascii) ws) (length (rev t)) (rev t))
      as [p Hp].
    fold (Js.strip_start (map (@rev ascii) ws) (rev t)) in Hp. fold x in Hp.
    assert (Ht : t = u ++ rev p).
    { rewrite Hu, <- rev_app_distr, <- Hp. by rewrite rev_involutive. }
    assert (is_Some (Js.strip_one ws t)) as [r' Hr'].
    { rewrite Ht. apply strip_one_app. eauto. }
    unfold t in Hr'. by rewrite strip_start_done in Hr'. }
  rewrite Hstart. unfold Js.strip_end. rewrite Hu, rev_involutive.
  f_equal. apply strip_start_fixed. unfold x. by apply strip_start_done.
Qed.

Lemma whitespace_nonempty : Forall (λ w, w ≠ []) Js.whitespace.
Proof. repeat constructor; discriminate. Qed.

Lemma trim_trim (s : string) : Js.trim (Js.trim s) = Js.trim s.
Proof.
  unfold Js.trim. rewrite String.list_ascii_of_string_of_list_ascii.
  f_equal. apply strip_both_fixed, whitespace_nonempty.
Qed.

(** ** Tasks in JSON files: one file per user *)

Section TaskFilesFacts.
Import Js TaskFiles.
Context {Id : Type} (render : Id → string) `{!Inj (=) (=) render}.

Lemma getUserTasksFile_inj (A B : Id) :
  getUserTasksFile render A = getUserTasksFile render B → A = B.
Proof.
  unfold getUserTasksFile. intros H.
  do 2 apply String.app_inj in H.
  apply append_inj_l in H. by apply (inj render).
Qed.

Lemma load_save (fs : files) (A : Id) (tasks : list object) :
  loadUserTasks render (saveUserTasks render fs A tasks) A = tasks.
Proof.
  unfold loadUserTasks, saveUserTasks. by rewrite lookup_insert_eq.
Qed.

Lemma load_save_other (fs : files) (A B : Id) (tasks : list object) :
  A ≠ B →
  loadUserTasks render (saveUserTasks render fs A tasks) B
  = loadUserTasks render fs B.
Proof.
  intros Hne. unfold loadUserTasks, saveUserTasks.
  rewrite lookup_insert_ne; [done|].
  intros H. by apply Hne, getUserTasksFile_inj.
Qed.

(** A handler called for [A] writes no file but the one of [A]. *)
Lemma handler_frame (coercing : bool) (fs : files) (A B : Id)
    (req : request) :
  A ≠ B →
  loadUserTasks render (snd (handleApiRequest render coercing fs A req)) B
  = loadUserTasks render fs B.
Proof.
  intros Hne. destruct req as [|c body|taskId now body|taskId]; simpl.
  - done.
  - unfold createTask.
    destruct (truthy (body !! "text")); simpl; [|done].
    destruct (body !! "text") as [[| | |s| |]|]; simpl; try done.
    destruct (String.eqb (trim s) ""); simpl; [done|].
    by apply load_save_other.
  - destruct coercing; unfold updateTask_coercing, updateTask;
      destruct (findIndex _ _); simpl; try done; by apply load_save_other.
  - unfold deleteTask. destruct (_ =? _)%nat; simpl; [done|].
    by apply load_save_other.
Qed.

(** What a handler called for [A] answers and what it leaves in the file
    of [A] depend on that file only. *)
Lemma handler_local (coercing : bool) (fs fs' : files) (A : Id)
    (req : request) :
  loadUserTasks render fs' A = loadUserTasks render fs A →
  fst (handleApiRequest render coercing fs' A req)
  = fst (handleApiRequest render coercing fs A req)
  ∧ loadUserTasks render (snd (handleApiRequest render coercing fs' A req)) A
    = loadUserTasks render (snd (handleApiRequest render coercing fs A req)) A.
Proof.
  intros Heq. destruct req as [|c body|taskId now body|taskId]; simpl.
  - unfold getTasks. simpl. by rewrite Heq.
  - unfold createTask.
    destruct (truthy (body !! "text")); simpl; [|done].
    destruct (body !! "text") as [[| | |s| |]|]; simpl; try done.
    destruct (String.eqb (trim s) ""); simpl; [done|].
    by rewrite !load_save, Heq.
  - destruct coercing; unfold updateTask_coercing, updateTask;
      rewrite Heq; destruct (findIndex _ _); simpl; try done;
      by rewrite !load_save.
  - unfold deleteTask. rewrite Heq. destruct (_ =? _)%nat; simpl; [done|].
    by rewrite !load_save.
Qed.

(** After any sequence of requests the file of [A] is what the requests of
    [A] alone would have made it. *)
Lemma serve_own_requests `{EqDecision Id} (coercing : bool) (A : Id)
    (log : list (Id * request)) (fs fs' : files) :
  loadUserTasks render fs' A = loadUserTasks render fs A →
  loadUserTasks render (serve render coercing fs' (requests_of A log)) A
  = loadUserTasks render (serve render coercing fs log) A.
Proof.
  revert fs fs'. induction log as [|[B req] log IH]; intros fs fs' Heq;
    simpl; [done|].
  case_bool_decide as HB; simpl in HB.
  - subst B. simpl. apply IH. by apply handler_local.
  - apply IH. rewrite Heq. symmetry. by apply handler_frame.
Qed.

Lemma updateTask_404 (now : string) (fs : files) (body : object) (A : Id)
    (taskId : string) :
  (∀ t, t ∈ loadUserTasks render fs A → has_id taskId t = false) ↔
  updateTask render now fs body A taskId
  = (sendResponse 404 (ErrorBody "Задача не найдена"), fs).
Proof.
  unfold updateTask. rewrite <- findIndex_None.
  destruct (findIndex _ _); split; intros H; try done.
Qed.

Lemma updateTask_coercing_404 (now : string) (fs : files) (body : object)
    (A : Id) (taskId : string) :
  (∀ t, t ∈ loadUserTasks render fs A → has_id taskId t = false) ↔
  updateTask_coercing render now fs body A taskId
  = (sendResponse 404 (ErrorBody "Задача не найдена"), fs).
Proof.
  unfold updateTask_coercing. rewrite <- findIndex_None.
  destruct (findIndex _ _); split; intros H; try done.
Qed.

Lemma negb_has_id_all (taskId : string) (tasks : list object) :
  (∀ t, t ∈ tasks → negb (has_id taskId t) = true) ↔
  (∀ t, t ∈ tasks → has_id taskId t = false).
Proof.
  split; intros H t Ht; specialize (H t Ht);
    by destruct (has_id taskId t).
Qed.

Lemma deleteTask_404 (fs : files) (A : Id) (taskId : string) :
  (∀ t, t ∈ loadUserTasks render fs A → has_id taskId t = false) ↔
  deleteTask render fs A taskId
  = (sendResponse 404 (ErrorBody "Задача не найдена"), fs).
Proof.
  unfold deleteTask. rewrite <- negb_has_id_all, <- filter_length_eq.
  destruct (_ =? _)%nat eqn:E.
  - apply Nat.eqb_eq in E. split; [done|]. by intros _.
  - apply Nat.eqb_neq in E. split; [intros H; by rewrite H in E|done].
Qed.

Lemma deleteTask_200 (fs : files) (A : Id) (taskId : string) (t : object) :
  t ∈ loadUserTasks render fs A → has_id taskId t = true →
  deleteTask render fs A taskId
  = (sendResponse 200 (MessageBody "Задача удалена"),
     saveUserTasks render fs A
       (List.filter (λ t, negb (has_id taskId t))
          (loadUserTasks render fs A))).
Proof.
  intros Hin Hid. unfold deleteTask.
  destruct (_ =? _)%nat eqn:E; [|done].
  apply Nat.eqb_eq in E. symmetry in E.
  rewrite filter_length_eq in E. specialize (E t Hin).
  by rewrite Hid in E.
Qed.
End TaskFilesFacts.

(** ** Tasks in SQLite: one table, keyed by task id *)

Section TableFacts.
Import Js Part001.

Lemma existsb_id_false (db : table) (taskId : string) :
  existsb (λ r, String.eqb (id r) taskId) db = false → taskId ∉ map id db.
Proof.
  induction db as [|r db IH]; simpl; [intros _; apply not_elem_of_nil|].
  intros [H1 H2]%orb_false_elim. apply not_elem_of_cons. split; [|auto].
  apply String.eqb_neq in H1. congruence.
Qed.

Lemma insert_task_NoDup ts db taskId userId text priority category deadline db' :
  NoDup (map id db) →
  insert_task ts db taskId userId text priority category deadline = Some db' →
  NoDup (map id db').
Proof.
  unfold insert_task. intros Hnd.
  destruct (existsb _ db) eqn:E; [done|]. intros [= <-].
  rewrite map_app. simpl. apply NoDup_app. split_and!; [done| |].
  - intros x Hx ->%list_elem_of_singleton.
    by apply existsb_id_false in E.
  - apply NoDup_singleton.
Qed.

Lemma createTask_NoDup c ts db body userId :
  NoDup (map id db) → NoDup (map id (snd (createTask c ts db body userId))).
Proof.
  intros Hnd. unfold createTask.
  destruct (createTask_throws body); [done|].
  destruct (String.eqb _ ""); simpl; [done|].
  destruct (insert_task _ _ _ _ _ _ _ _) as [db'|] eqn:E; simpl; [|done].
  by eapply insert_task_NoDup.
Qed.

Lemma update_task_ids ts db d completedInt taskId userId :
  map id (fst (update_task ts db d completedInt taskId userId)) = map id db.
Proof.
  unfold update_task. simpl. rewrite map_map. apply map_ext.
  intros r. by destruct (selected taskId userId r).
Qed.

Lemma updateTask_ids f ts db body userId taskId :
  map id (snd (updateTask f ts db body userId taskId)) = map id db.
Proof.
  unfold updateTask. destruct (sanitizeTaskData f body) as [d|]; [|done].
  pose proof (update_task_ids ts db d
    (if truthy (body !! "completed") then 1 else 0) taskId userId) as H.
  destruct (update_task _ _ _ _ _ _) as [db' changes]. simpl in *.
  by destruct (changes =? 0)%nat.
Qed.

Lemma filter_ids_NoDup (p : task_row → bool) (db : table) :
  NoDup (map id db) → NoDup (map id (List.filter p db)).
Proof.
  induction db as [|r db IH]; simpl; [done|].
  intros [Hr Hnd]%NoDup_cons. destruct (p r); simpl; [|auto].
  apply NoDup_cons. split; [|auto].
  intros Hin. apply Hr.
  apply list_elem_of_fmap in Hin as (r' & -> & Hr').
  apply elem_of_filter_bool in Hr' as [Hr' _].
  apply list_elem_of_fmap. eauto.
Qed.

Lemma deleteTask_NoDup db userId taskId :
  NoDup (map id db) → NoDup (map id (snd (deleteTask db userId taskId))).
Proof.
  intros Hnd. unfold deleteTask, delete_task.
  destruct (_ =? 0)%nat; simpl; by apply filter_ids_NoDup.
Qed.

(** The primary key holds in every table the server can reach. *)
Lemma reachable_NoDup (db : table) : reachable db → NoDup (map id db).
Proof.
  induction 1.
  - apply NoDup_nil_2.
  - by apply createTask_NoDup.
  - by rewrite updateTask_ids.
  - by apply deleteTask_NoDup.
Qed.

Lemma NoDup_ids_eq (db : table) (r r' : task_row) :
  NoDup (map id db) → r ∈ db → r' ∈ db → id r = id r' → r = r'.
Proof.
  induction db as [|x db IH]; simpl; [by intros _ ?%elem_of_nil|].
  intros [Hx Hnd]%NoDup_cons [->|Hr]%elem_of_cons [->|Hr']%elem_of_cons Hid.
  - done.
  - exfalso. apply Hx. rewrite Hid. by apply list_elem_of_fmap_2.
  - exfalso. apply Hx. rewrite <- Hid. by apply list_elem_of_fmap_2.
  - by apply IH.
Qed.

(** No row is selected by the id of a row of another user. *)
Lemma foreign_not_selected (db : table) (r : task_row) (a : Z) :
  NoDup (map id db) → r ∈ db → user_id r ≠ a →
  ∀ x, x ∈ db → selected (id r) a x = false.
Proof.
  intros Hnd Hr Hne x Hx. unfold selected.
  destruct (String.eqb (id x) (id r)) eqn:E; [|done]. simpl.
  apply String.eqb_eq in E.
  assert (x = r) as -> by by eapply NoDup_ids_eq.
  by apply Z.eqb_neq.
Qed.

Lemma filter_none_length (p : task_row → bool) (db : table) :
  (∀ x, x ∈ db → p x = false) → length (List.filter p db) = O.
Proof.
  induction db as [|x db IH]; intros H; simpl; [done|].
  rewrite (H x (list_elem_of_here _ _)). apply IH.
  intros y Hy. apply H. by constructor.
Qed.

Lemma filter_some_length (p : task_row → bool) (db : table) (r : task_row) :
  r ∈ db → p r = true → length (List.filter p db) ≠ O.
Proof.
  intros Hr Hp Hlen. apply length_zero_iff_nil in Hlen.
  assert (r ∈ List.filter p db) as Hin by by apply elem_of_filter_bool.
  rewrite Hlen in Hin. by apply elem_of_nil in Hin.
Qed.

Lemma deleteTask_not_selected (db : table) (a : Z) (taskId : string) :
  (∀ x, x ∈ db → selected taskId a x = false) →
  deleteTask db a taskId
  = (sendResponse 404 (ErrorBody "Задача не найдена"), db).
Proof.
  intros H. unfold deleteTask, delete_task.
  rewrite filter_none_length by done. simpl. f_equal.
  apply filter_all. intros x Hx. by rewrite H.
Qed.

Lemma update_task_not_selected ts (db : table) d completedInt (a : Z)
    (taskId : string) :
  (∀ x, x ∈ db → selected taskId a x = false) →
  update_task ts db d completedInt taskId a = (db, O).
Proof.
  intros H. unfold update_task. rewrite filter_none_length by done.
  f_equal. induction db as [|x db IH]; simpl; [done|].
  rewrite (H x (list_elem_of_here _ _)). f_equal. apply IH.
  intros y Hy. apply H. by constructor.
Qed.

Lemma updateTask_not_selected f ts (db : table) body (a : Z)
    (taskId : string) :
  (∀ x, x ∈ db → selected taskId a x = false) →
  updateTask f ts db body a taskId
  = (match sanitizeTaskData f body with
     | Some _ => sendResponse 404 (ErrorBody "Задача не найдена")
     | None => sendResponse 500 (ErrorBody "Внутренняя ошибка сервера")
     end, db).
Proof.
  intros H. unfold updateTask.
  destruct (sanitizeTaskData f body) as [d|]; [|done].
  by rewrite update_task_not_selected.
Qed.

Lemma insert_row_Permutation (x : task_row) (rows : list task_row) :
  insert_row x rows ≡ₚ x :: rows.
Proof.
  induction rows as [|y rows IH]; simpl; [done|].
  destruct (decide (newer_first x y)); [done|].
  rewrite IH. apply Permutation_swap.
Qed.

Lemma order_by_created_at_desc_Permutation (rows : list task_row) :
  order_by_created_at_desc rows ≡ₚ rows.
Proof.
  induction rows as [|x rows IH]; simpl; [done|].
  by rewrite insert_row_Permutation, IH.
Qed.

Lemma elem_of_select_tasks (db : table) (a : Z) (r : task_row) :
  r ∈ select_tasks db a ↔ r ∈ db ∧ user_id r = a.
Proof.
  unfold select_tasks. rewrite order_by_created_at_desc_Permutation.
  rewrite elem_of_filter_bool. by rewrite Z.eqb_eq.
Qed.
End TableFacts.

(** ** Owner isolation *)

Section OwnerIsolation.
Import Js TaskFiles.

(** C1, as stated, fails in index.js: alice gives her own task the id of
    a task of bob (the body of an update may carry an [id]); after that her
    update and her delete naming the id of bob's task are answered with 200,
    not with 404. Both act on her own task; bob's file still holds his. *)
Lemma foreign_id_answered_200 :
  let fs := snd (IndexJs.updateTask "2023-11-14T22:13:20.300Z"
                   Sample.two_files
                   {[ "id" := JStr "task_1700000000100_bob" ]}
                   Sample.alice "task_1700000000200_alice") in
  (λ t : object, t !! "id") <$> loadUserTasks Datatypes.id fs Sample.bob
  = [Some (JStr "task_1700000000100_bob")]
  ∧ fst (IndexJs.updateTask "2023-11-14T22:13:20.400Z" fs ∅
           Sample.alice "task_1700000000100_bob")
    = sendResponse 200 (MessageBody "Задача обновлена")
  ∧ fst (IndexJs.deleteTask fs Sample.alice "task_1700000000100_bob")
    = sendResponse 200 (MessageBody "Задача удалена").
Proof. vm_compute. repeat split. Qed.

(** C1 (amended). For distinct users A and B, a request handled for A is
    answered as if the tasks of B did not exist and leaves them as they
    are. With tasks in JSON files: the handler writes no file but the one
    of A, its answer depends on that file only, an update or a delete is
    answered with 404 when that file holds no task with the given id, and
    the list for A is the content of that file; after any sequence of
    requests of any users, a request of A is answered as if only the
    requests of A had been handled. With tasks in SQLite, in every table
    the server can reach and for every row [r] owned by another user: a
    delete by A naming the id of [r] is answered with 404, an update with
    404 (with the 500 that a body on which [sanitizeTaskData] throws gets
    for every id), the table stays as it is, and [r] is not among the rows
    listed for A, which all carry the user id of A. *)
Theorem owner_isolation
    {Id : Type} `{EqDecision Id} (render : Id → string) (coercing : bool)
    (fs : files) (log : list (Id * request))
    (A B : Id) (req : request) (taskId : string)
    (db : Part001.table) (a : Z) (r : Part001.task_row) :
  Inj (=) (=) render → A ≠ B →
  Part001.reachable db → r ∈ db → Part001.user_id r ≠ a →
  (loadUserTasks render (snd (handleApiRequest render coercing fs A req)) B
     = loadUserTasks render fs B
   ∧ (∀ fs', loadUserTasks render fs' A = loadUserTasks render fs A →
        fst (handleApiRequest render coercing fs' A req)
        = fst (handleApiRequest render coercing fs A req))
   ∧ ((∀ t, t ∈ loadUserTasks render fs A → has_id taskId t = false) →
        ∀ now body,
          handleApiRequest render coercing fs A (PUT_task taskId now body)
          = (sendResponse 404 (ErrorBody "Задача не найдена"), fs)
          ∧ handleApiRequest render coercing fs A (DELETE_task taskId)
            = (sendResponse 404 (ErrorBody "Задача не найдена"), fs))
   ∧ handleApiRequest render coercing fs A GET_tasks
     = (sendResponse 200 (TasksBody (loadUserTasks render fs A)), fs)
   ∧ fst (handleApiRequest render coercing (serve render coercing fs log)
            A req)
     = fst (handleApiRequest render coercing
              (serve render coercing fs (requests_of A log)) A req))
  ∧
  (Part001.deleteTask db a (Part001.id r)
     = (sendResponse 404 (ErrorBody "Задача не найдена"), db)
   ∧ (∀ toISODate current_timestamp body,
        Part001.updateTask toISODate current_timestamp db body a
          (Part001.id r)
        = (match Part001.sanitizeTaskData toISODate body with
           | Some _ => sendResponse 404 (ErrorBody "Задача не найдена")
           | None =>
               sendResponse 500 (ErrorBody "Внутренняя ошибка сервера")
           end, db))
   ∧ Part001.getTasks db a
     = (sendResponse 200
          (TasksBody (map Part001.format_row (Part001.select_tasks db a))),
        db)
   ∧ (r ∉ Part001.select_tasks db a)
   ∧ (∀ x, x ∈ Part001.select_tasks db a → Part001.user_id x = a)).
Proof.
  intros Hinj Hne Hreach Hr Hown. split.
  - split_and!.
    + by apply handler_frame.
    + intros fs' Heq. by apply handler_local.
    + intros Hnone now body. simpl. split.
      * destruct coercing;
          [by apply updateTask_coercing_404 | by apply updateTask_404].
      * by apply deleteTask_404.
    + done.
    + symmetry. by apply handler_local, serve_own_requests.
  - apply reachable_NoDup in Hreach.
    pose proof (foreign_not_selected db r a Hreach Hr Hown) as Hsel.
    split_and!.
    + by apply deleteTask_not_selected.
    + intros f ts body. by apply updateTask_not_selected.
    + done.
    + intros Hin. apply elem_of_select_tasks in Hin as [_ Hin]. done.
    + intros x Hx. by apply elem_of_select_tasks in Hx as [_ Hx].
Qed.

Lemma owner_isolation_witness :
  loadUserTasks Datatypes.id
    (snd (handleApiRequest Datatypes.id false Sample.two_files Sample.alice
            (DELETE_task "task_1700000000200_alice"))) Sample.bob
  = loadUserTasks Datatypes.id Sample.two_files Sample.bob
  ∧ Part001.deleteTask [Sample.row_bob] 1 "task_1700000000100_bob"
    = (sendResponse 404 (ErrorBody "Задача не найдена"), [Sample.row_bob]).
Proof.
  destruct (owner_isolation Datatypes.id false Sample.two_files
              [(Sample.bob, DELETE_task "task_1700000000100_bob")]
              Sample.alice Sample.bob
              (DELETE_task "task_1700000000200_alice")
              "task_1700000000100_bob" [Sample.row_bob] 1 Sample.row_bob)
    as [(Hframe & _) (Hdelete & _)].
  - apply _.
  - discriminate.
  - exact (Part001.reachable_create Sample.clock_bob "2023-11-14 22:13:20"
             [] Sample.pay_rent 2 Part001.reachable_empty).
  - apply list_elem_of_here.
  - discriminate.
  - split; assumption.
Defined.
End OwnerIsolation.

(** ** Deleting a task *)

Section Delete.
Import Js TaskFiles.

Lemma filter_length_zero (p : Part001.task_row → bool) (db : Part001.table) :
  length (List.filter p db) = O → ∀ x, x ∈ db → p x = false.
Proof.
  intros Hlen x Hx. destruct (p x) eqn:E; [|done].
  by destruct (filter_some_length p db x Hx E).
Qed.

Lemma sql_deleteTask_404 (db : Part001.table) (a : Z) (taskId : string) :
  (∀ x, x ∈ db → Part001.selected taskId a x = false) ↔
  Part001.deleteTask db a taskId
  = (sendResponse 404 (ErrorBody "Задача не найдена"), db).
Proof.
  split; [apply deleteTask_not_selected|].
  unfold Part001.deleteTask, Part001.delete_task.
  destruct (_ =? 0)%nat eqn:E; [|done]. intros _.
  apply Nat.eqb_eq in E. by apply filter_length_zero.
Qed.

Lemma sql_deleteTask_200 (db : Part001.table) (a : Z) (taskId : string)
    (r : Part001.task_row) :
  r ∈ db → Part001.selected taskId a r = true →
  Part001.deleteTask db a taskId
  = (sendResponse 200 (MessageBody "Задача удалена"),
     List.filter (λ x, negb (Part001.selected taskId a x)) db).
Proof.
  intros Hr Hsel. unfold Part001.deleteTask, Part001.delete_task.
  destruct (_ =? 0)%nat eqn:E; [|done].
  apply Nat.eqb_eq in E. by destruct (filter_some_length _ db r Hr Hsel).
Qed.

(** C9. A delete is answered with 404 exactly when the caller holds no task
    with the given id, and then the store stays as it is. When the caller
    holds such a task, the delete is answered with 200 and leaves the
    caller's other tasks and nothing else; a second delete of the same id by
    the same user is answered with 404 and changes nothing. This holds for
    tasks in JSON files (index.js, part_000) and in SQLite (part_001). *)
Theorem delete_twice
    {Id : Type} (render : Id → string) (fs : files) (A : Id)
    (taskId : string) (t : object)
    (db : Part001.table) (a : Z) (r : Part001.task_row) :
  t ∈ loadUserTasks render fs A → has_id taskId t = true →
  r ∈ db → Part001.id r = taskId → Part001.user_id r = a →
  (fst (deleteTask render fs A taskId)
     = sendResponse 200 (MessageBody "Задача удалена")
   ∧ (∀ x, x ∈ loadUserTasks render (snd (deleteTask render fs A taskId)) A
           ↔ x ∈ loadUserTasks render fs A ∧ has_id taskId x = false)
   ∧ deleteTask render (snd (deleteTask render fs A taskId)) A taskId
     = (sendResponse 404 (ErrorBody "Задача не найдена"),
        snd (deleteTask render fs A taskId))
   ∧ (∀ other,
        (∀ x, x ∈ loadUserTasks render fs A → has_id other x = false) ↔
        deleteTask render fs A other
        = (sendResponse 404 (ErrorBody "Задача не найдена"), fs)))
  ∧
  (fst (Part001.deleteTask db a taskId)
     = sendResponse 200 (MessageBody "Задача удалена")
   ∧ (∀ x, x ∈ snd (Part001.deleteTask db a taskId)
           ↔ x ∈ db ∧ ¬ (Part001.id x = taskId ∧ Part001.user_id x = a))
   ∧ Part001.deleteTask (snd (Part001.deleteTask db a taskId)) a taskId
     = (sendResponse 404 (ErrorBody "Задача не найдена"),
        snd (Part001.deleteTask db a taskId))
   ∧ (∀ other,
        (∀ x, x ∈ db → ¬ (Part001.id x = other ∧ Part001.user_id x = a)) ↔
        Part001.deleteTask db a other
        = (sendResponse 404 (ErrorBody "Задача не найдена"), db))).
Proof.
  intros Ht Hid Hr Hrid Hra.
  assert (Hsel : ∀ other x, Part001.selected other a x = false
                 ↔ ¬ (Part001.id x = other ∧ Part001.user_id x = a)).
  { intros other x. unfold Part001.selected.
    rewrite andb_false_iff, String.eqb_neq, Z.eqb_neq.
    split; [intros [?|?] [??]; done|].
    intros H. destruct (decide (Part001.id x = other)); [|by left].
    right. intros ?. by apply H. }
  split.
  - rewrite (deleteTask_200 render fs A taskId t Ht Hid). simpl.
    assert (Hnew : ∀ x, x ∈ loadUserTasks render
                     (saveUserTasks render fs A
                        (List.filter (λ t, negb (has_id taskId t))
                           (loadUserTasks render fs A))) A
                   ↔ x ∈ loadUserTasks render fs A ∧ has_id taskId x = false).
    { intros x. rewrite load_save, elem_of_filter_bool.
      by rewrite negb_true_iff. }
    split_and!; [done|done| |].
    + apply deleteTask_404. intros x Hx. by apply Hnew in Hx as [_ Hx].
    + intros other. apply deleteTask_404.
  - assert (Part001.selected taskId a r = true) as Hselr.
    { unfold Part001.selected. rewrite Hrid, Hra.
      by rewrite String.eqb_refl, Z.eqb_refl. }
    rewrite (sql_deleteTask_200 db a taskId r Hr Hselr). simpl.
    assert (Hnew : ∀ x, x ∈ List.filter
                     (λ x, negb (Part001.selected taskId a x)) db
                   ↔ x ∈ db ∧ ¬ (Part001.id x = taskId ∧ Part001.user_id x = a)).
    { intros x. by rewrite elem_of_filter_bool, negb_true_iff, Hsel. }
    split_and!; [done|done| |].
    + apply sql_deleteTask_404. intros x Hx. apply Hsel.
      by apply Hnew in Hx as [_ Hx].
    + intros other. rewrite <- sql_deleteTask_404.
      split; intros H x Hx; apply Hsel; by apply H.
Qed.

Lemma delete_twice_witness :
  fst (deleteTask Datatypes.id Sample.two_files Sample.alice
         "task_1700000000200_alice")
  = sendResponse 200 (MessageBody "Задача удалена")
  ∧ fst (Part001.deleteTask [Sample.row_bob; Sample.row_alice] 1
           "task_1700000000200_alice")
    = sendResponse 200 (MessageBody "Задача удалена").
Proof.
  destruct (delete_twice Datatypes.id Sample.two_files Sample.alice
              "task_1700000000200_alice" Sample.task_alice
              [Sample.row_bob; Sample.row_alice] 1 Sample.row_alice)
    as [(Hfiles & _) (Htable & _)].
  - apply list_elem_of_here.
  - reflexivity.
  - apply list_elem_of_further, list_elem_of_here.
  - reflexivity.
  - reflexivity.
  - split; assumption.
Defined.
End Delete.

(** ** Updating a task kept in a JSON file *)

Section UpdateFiles.
Import Js TaskFiles.
Context {Id : Type} (render : Id → string).

Lemma merge_updated_at (old body : object) (now : string) :
  merge old body now !! "updated_at" = Some (JStr now).
Proof. unfold merge. apply lookup_insert_eq. Qed.

Lemma merge_present (old body : object) (now k : string) (v : json) :
  k ≠ "updated_at" → body !! k = Some v → merge old body now !! k = Some v.
Proof.
  intros Hk Hv. unfold merge. rewrite lookup_insert_ne by done.
  by apply lookup_union_Some_l.
Qed.

Lemma merge_absent (old body : object) (now k : string) :
  k ≠ "updated_at" → body !! k = None → merge old body now !! k = old !! k.
Proof.
  intros Hk Hv. unfold merge. rewrite lookup_insert_ne by done.
  by rewrite lookup_union_r.
Qed.

(** The task found by [findIndex] is replaced by the merged one; the others
    stay. *)
Lemma updateTask_found (now : string) (fs : files) (body : object) (A : Id)
    (taskId : string) (i : nat) (old : object) :
  findIndex (has_id taskId) (loadUserTasks render fs A) = Some i →
  loadUserTasks render fs A !! i = Some old →
  fst (updateTask render now fs body A taskId)
  = sendResponse 200 (MessageBody "Задача обновлена")
  ∧ loadUserTasks render (snd (updateTask render now fs body A taskId)) A
    = <[i := merge old body now]> (loadUserTasks render fs A).
Proof.
  intros Hi Hold. unfold updateTask. rewrite Hi. simpl.
  rewrite load_save. by rewrite (list_lookup_total_correct _ _ _ Hold).
Qed.

Lemma updateTask_coercing_found (now : string) (fs : files) (body : object)
    (A : Id) (taskId : string) (i : nat) (old : object) :
  findIndex (has_id taskId) (loadUserTasks render fs A) = Some i →
  loadUserTasks render fs A !! i = Some old →
  fst (updateTask_coercing render now fs body A taskId)
  = sendResponse 200 (MessageBody "Задача обновлена")
  ∧ loadUserTasks render
      (snd (updateTask_coercing render now fs body A taskId)) A
    = <[i := match body !! "completed" with
             | Some v => <["completed" := JBool (js_truthy v)]>
                           (merge old body now)
             | None => merge old body now
             end]> (loadUserTasks render fs A).
Proof.
  intros Hi Hold. unfold updateTask_coercing. rewrite Hi. simpl.
  rewrite load_save. by rewrite (list_lookup_total_correct _ _ _ Hold).
Qed.

Lemma lookup_replaced (tasks : list object) (i : nat) (old new : object) :
  tasks !! i = Some old → <[i := new]> tasks !! i = Some new.
Proof.
  intros H. apply list_lookup_insert_eq. by eapply lookup_lt_Some.
Qed.

(** Patch semantics of the two JSON-file variants: a field that the body
    does not carry keeps its value, and [updated_at] is the new stamp. *)
Lemma files_update_is_a_patch (coercing : bool) (now : string) (fs : files)
    (body : object) (A : Id) (taskId : string) (i : nat) (old : object) :
  findIndex (has_id taskId) (loadUserTasks render fs A) = Some i →
  loadUserTasks render fs A !! i = Some old →
  ∃ new,
    loadUserTasks render
      (snd (handleApiRequest render coercing fs A (PUT_task taskId now body)))
      A !! i = Some new
    ∧ new !! "updated_at" = Some (JStr now)
    ∧ ∀ k, k ≠ "updated_at" → body !! k = None → new !! k = old !! k.
Proof.
  intros Hi Hold. simpl. destruct coercing.
  - destruct (updateTask_coercing_found now fs body A taskId i old Hi Hold)
      as [_ ->].
    eexists. split; [by eapply lookup_replaced|].
    destruct (body !! "completed") as [v|] eqn:Hc.
    + split.
      * rewrite lookup_insert_ne by done. apply merge_updated_at.
      * intros k Hk Hbody. rewrite lookup_insert_ne by congruence.
        by apply merge_absent.
    + split; [apply merge_updated_at|]. intros k Hk Hbody.
      by apply merge_absent.
  - destruct (updateTask_found now fs body A taskId i old Hi Hold) as [_ ->].
    eexists. split; [by eapply lookup_replaced|].
    split; [apply merge_updated_at|]. intros k Hk Hbody.
    by apply merge_absent.
Qed.

(** The [updateTask] of part_000 stores the boolean that [completed]
    coerces to. *)
Lemma part_000_coerces_completed (now : string) (fs : files) (body : object)
    (A : Id) (taskId : string) (i : nat) (old : object) (v : json) :
  findIndex (has_id taskId) (loadUserTasks render fs A) = Some i →
  loadUserTasks render fs A !! i = Some old →
  body !! "completed" = Some v →
  ∃ new,
    loadUserTasks render
      (snd (updateTask_coercing render now fs body A taskId)) A !! i
    = Some new
    ∧ new !! "completed" = Some (JBool (js_truthy v)).
Proof.
  intros Hi Hold Hv.
  destruct (updateTask_coercing_found now fs body A taskId i old Hi Hold)
    as [_ ->].
  rewrite Hv. eexists. split; [by eapply lookup_replaced|].
  apply lookup_insert_eq.
Qed.

End UpdateFiles.

Section UpdateSamples.
Import Js TaskFiles.



(** C2 fails in index.js: its [updateTask] has no coercion (part_000 has
    one, see [part_000_coerces_completed]); a body with [completed: "true"]
    leaves the string in the stored task. *)
Theorem index_js_stores_completed_verbatim :
  let fs := snd (IndexJs.updateTask "2023-11-14T22:13:20.300Z"
                   Sample.two_files {[ "completed" := JStr "true" ]}
                   Sample.alice "task_1700000000200_alice") in
  fst (IndexJs.updateTask "2023-11-14T22:13:20.300Z"
         Sample.two_files {[ "completed" := JStr "true" ]}
         Sample.alice "task_1700000000200_alice")
  = sendResponse 200 (MessageBody "Задача обновлена")
  ∧ (λ t : object, t !! "completed")
      <$> loadUserTasks Datatypes.id fs Sample.alice
    = [Some (JStr "true")].
Proof. repeat split. Qed.

(** C5 fails in part_001: [sanitizeTaskData] fills every field that the body
    does not carry with its default, and the UPDATE writes them all. A body
    with [completed] only empties the text and resets priority, category and
    deadline of the row. *)
Theorem sqlite_update_resets_absent_fields
    (toISODate : json → option string) :
  Part001.updateTask toISODate "2023-11-15 10:00:00" [Sample.row_alice]
    {[ "completed" := JBool true ]} 1 "task_1700000000200_alice"
  = (sendResponse 200 (MessageBody "Задача обновлена"),
     [ {| Part001.id := "task_1700000000200_alice"; Part001.user_id := 1;
          Part001.text := ""; Part001.completed := 1;
          Part001.priority := "medium"; Part001.category := "personal";
          Part001.deadline := None;
          Part001.created_at := "2023-11-14 22:13:21";
          Part001.updated_at := "2023-11-15 10:00:00" |} ]).
Proof. reflexivity. Qed.
End UpdateSamples.

(** ** The text of a stored task *)

Section TextInvariant.
Import Js TaskFiles Text.

Lemma trimmed_nonempty_trim (s : string) :
  String.eqb (trim s) "" = false → trimmed_nonempty (trim s) = true.
Proof.
  intros H. unfold trimmed_nonempty. rewrite H, trim_trim. simpl.
  apply String.eqb_refl.
Qed.

Lemma files_ok_save {Id : Type} (render : Id → string) (fs : files) (A : Id)
    (tasks : list object) :
  files_ok fs → Forall (λ t, has_text t = true) tasks →
  files_ok (saveUserTasks render fs A tasks).
Proof. intros Hfs Htasks. by apply map_Forall_insert_2. Qed.

Lemma files_ok_load {Id : Type} (render : Id → string) (fs : files) (A : Id) :
  files_ok fs → Forall (λ t, has_text t = true) (loadUserTasks render fs A).
Proof.
  intros Hfs. unfold loadUserTasks.
  destruct (fs !! getUserTasksFile render A) as [tasks|] eqn:E; simpl.
  - by apply (Hfs _ _ E).
  - constructor.
Qed.

Lemma Forall_filter_bool {A : Type} (P : A → Prop) (p : A → bool)
    (l : list A) :
  Forall P l → Forall P (List.filter p l).
Proof.
  induction 1 as [|x l Hx Hl IH]; simpl; [constructor|].
  destruct (p x); [by constructor|done].
Qed.

Lemma createTask_files_ok {Id : Type} (render : Id → string) (c : clock)
    (fs : files) (body : object) (A : Id) :
  files_ok fs → files_ok (snd (createTask render c fs body A)).
Proof.
  intros Hfs. unfold createTask.
  destruct (truthy (body !! "text")); simpl; [|done].
  destruct (body !! "text") as [[| | |s| |]|]; simpl; try done.
  destruct (String.eqb (trim s) "") eqn:E; simpl; [done|].
  apply files_ok_save; [done|]. apply Forall_app. split.
  - by apply files_ok_load.
  - constructor; [|constructor]. unfold has_text.
    rewrite lookup_insert_ne by done. rewrite lookup_insert_eq.
    by apply trimmed_nonempty_trim.
Qed.

Lemma createTask_blank {Id : Type} (render : Id → string) (c : clock)
    (fs : files) (body : object) (A : Id) :
  blank (body !! "text") = true →
  createTask render c fs body A
  = (sendResponse 400 (ErrorBody "Текст задачи обязателен"), fs).
Proof.
  unfold createTask, blank.
  destruct (body !! "text") as [[| | |s| |]|]; simpl; try done.
  intros ->. by destruct (negb (String.eqb s "")).
Qed.

Lemma deleteTask_files_ok {Id : Type} (render : Id → string) (fs : files)
    (A : Id) (taskId : string) :
  files_ok fs → files_ok (snd (deleteTask render fs A taskId)).
Proof.
  intros Hfs. unfold deleteTask. destruct (_ =? _)%nat; simpl; [done|].
  apply files_ok_save; [done|]. by apply Forall_filter_bool, files_ok_load.
Qed.

Lemma merge_has_text (old body : object) (now : string) :
  has_text old = true →
  body !! "text" = None ∨ has_text body = true →
  has_text (merge old body now) = true.
Proof.
  intros Hold [Hnone|Hbody]; unfold has_text in *.
  - by rewrite merge_absent.
  - destruct (body !! "text") as [v|] eqn:E; [|done].
    by rewrite (merge_present old body now "text" v).
Qed.

Lemma updateTask_files_ok {Id : Type} (render : Id → string)
    (coercing : bool) (now : string) (fs : files) (body : object) (A : Id)
    (taskId : string) :
  files_ok fs → body !! "text" = None ∨ has_text body = true →
  files_ok
    (snd (handleApiRequest render coercing fs A (PUT_task taskId now body))).
Proof.
  intros Hfs Hbody. simpl.
  pose proof (files_ok_load render fs A Hfs) as Hload.
  assert (Hold : ∀ i, has_text (loadUserTasks render fs A !!! i) = true
                      ∨ loadUserTasks render fs A !! i = None).
  { intros i. destruct (loadUserTasks render fs A !! i) as [t|] eqn:E;
      [left|by right].
    rewrite (list_lookup_total_correct _ _ _ E).
    rewrite Forall_forall in Hload. apply Hload.
    by eapply list_elem_of_lookup_2. }
  assert (Hins : ∀ i new,
             (has_text (loadUserTasks render fs A !!! i) = true →
              has_text new = true) →
             Forall (λ t, has_text t = true)
               (<[i := new]> (loadUserTasks render fs A))).
  { intros i new Hnew. destruct (Hold i) as [Ht|Hnone].
    - apply Forall_insert; auto.
    - rewrite list_insert_ge; [done|]. by apply lookup_ge_None. }
  destruct coercing; unfold updateTask_coercing, updateTask;
    destruct (findIndex _ _) as [i|]; simpl; try done;
    apply files_ok_save; try done; apply Hins; intros Ht.
  - destruct (body !! "completed") as [v|].
    + unfold has_text. rewrite lookup_insert_ne by done.
      by apply merge_has_text.
    + by apply merge_has_text.
  - by apply merge_has_text.
Qed.

Lemma sql_createTask_table_ok (c : clock) (ts : string) (db : Part001.table)
    (body : object) (a : Z) :
  table_ok db → table_ok (snd (Part001.createTask c ts db body a)).
Proof.
  intros Hdb. unfold Part001.createTask.
  destruct (Part001.createTask_throws body); [done|].
  destruct (String.eqb (trim _) "") eqn:E; simpl; [done|].
  unfold Part001.insert_task. destruct (existsb _ db); simpl; [done|].
  apply Forall_app. split; [done|]. constructor; [|constructor]. simpl.
  by apply trimmed_nonempty_trim.
Qed.

Lemma sql_createTask_blank (c : clock) (ts : string) (db : Part001.table)
    (body : object) (a : Z) :
  blank (body !! "text") = true →
  Part001.createTask c ts db body a
  = (if Part001.createTask_throws body
     then sendResponse 500 (ErrorBody "Внутренняя ошибка сервера")
     else sendResponse 400 (ErrorBody "Текст задачи обязателен"), db).
Proof.
  unfold Part001.createTask, blank.
  destruct (Part001.createTask_throws body); [done|].
  destruct (body !! "text") as [[| | |s| |]|]; simpl; try done.
  destruct (negb (String.eqb s "")) eqn:Es; simpl.
  - by intros ->.
  - intros _. apply negb_false_iff, String.eqb_eq in Es as ->.
    reflexivity.
Qed.

Lemma sql_deleteTask_table_ok (db : Part001.table) (a : Z) (taskId : string) :
  table_ok db → table_ok (snd (Part001.deleteTask db a taskId)).
Proof.
  intros Hdb. unfold Part001.deleteTask, Part001.delete_task.
  destruct (_ =? 0)%nat; simpl; by apply Forall_filter_bool.
Qed.

Lemma sql_updateTask_table_ok (f : json → option string) (ts : string)
    (db : Part001.table) (body : object) (a : Z) (taskId : string) :
  table_ok db →
  String.eqb (trim (ToString (or_else (body !! "text") (JStr "")))) ""
  = false →
  table_ok (snd (Part001.updateTask f ts db body a taskId)).
Proof.
  intros Hdb Htext. unfold Part001.updateTask.
  destruct (Part001.sanitizeTaskData f body) as [d|] eqn:Ed; [|done].
  assert (Hd : trimmed_nonempty (Part001.td_text d) = true).
  { unfold Part001.sanitizeTaskData in Ed.
    destruct (Part001.sanitize_throws body); [done|].
    destruct (body !! "deadline") as [dl|].
    - destruct (js_truthy dl).
      + destruct (f dl); [|done]. injection Ed as <-. simpl.
        by apply trimmed_nonempty_trim.
      + injection Ed as <-. simpl. by apply trimmed_nonempty_trim.
    - injection Ed as <-. simpl. by apply trimmed_nonempty_trim. }
  unfold Part001.update_task.
  assert (Hmap : table_ok
            (map (λ r, if Part001.selected taskId a r
                       then {| Part001.id := Part001.id r;
                               Part001.user_id := Part001.user_id r;
                               Part001.text := Part001.td_text d;
                               Part001.completed :=
                                 if truthy (body !! "completed") then 1 else 0;
                               Part001.priority := Part001.td_priority d;
                               Part001.category := Part001.td_category d;
                               Part001.deadline := Part001.td_deadline d;
                               Part001.created_at := Part001.created_at r;
                               Part001.updated_at := ts |}
                       else r) db)).
  { induction Hdb as [|r db Hr Hdb IH]; simpl; [constructor|].
    constructor; [|done]. by destruct (Part001.selected taskId a r). }
  by destruct (_ =? 0)%nat.
Qed.

(** C6, as stated, fails: no variant checks the text of an update. In
    index.js a body with an empty [text] is merged into the stored task. *)
Lemma update_stores_empty_text :
  let fs := snd (IndexJs.updateTask "2023-11-14T22:13:20.300Z"
                   Sample.two_files {[ "text" := JStr "" ]}
                   Sample.alice "task_1700000000200_alice") in
  has_text Sample.task_alice = true
  ∧ fst (IndexJs.updateTask "2023-11-14T22:13:20.300Z"
           Sample.two_files {[ "text" := JStr "" ]}
           Sample.alice "task_1700000000200_alice")
    = sendResponse 200 (MessageBody "Задача обновлена")
  ∧ (λ t : object, t !! "text") <$> loadUserTasks Datatypes.id fs Sample.alice
    = [Some (JStr "")].
Proof. repeat split. Qed.

(** C6 (amended). When every stored task has a non-empty, trimmed text:
    a create leaves it so, and is answered with 400, storing nothing, when
    the text is missing, empty or white space only (in part_001 with the
    500 of the catch block instead, when a [String] conversion of another
    field of the body throws); a delete leaves it so; an update leaves it
    so when, for tasks in JSON files, its body has no [text] or a non-empty
    trimmed one, and when, for tasks in SQLite, the text of its body is not
    blank after trimming. *)
Theorem text_invariant
    {Id : Type} (render : Id → string) (coercing : bool) (fs : files)
    (A : Id) (db : Part001.table) (a : Z) (c : clock)
    (now current_timestamp taskId : string) (body : object)
    (toISODate : json → option string) :
  files_ok fs → table_ok db →
  (files_ok (snd (createTask render c fs body A))
   ∧ (blank (body !! "text") = true →
      createTask render c fs body A
      = (sendResponse 400 (ErrorBody "Текст задачи обязателен"), fs))
   ∧ files_ok (snd (deleteTask render fs A taskId))
   ∧ (body !! "text" = None ∨ has_text body = true →
      files_ok (snd (handleApiRequest render coercing fs A
                       (PUT_task taskId now body)))))
  ∧
  (table_ok (snd (Part001.createTask c current_timestamp db body a))
   ∧ (blank (body !! "text") = true →
      Part001.createTask c current_timestamp db body a
      = (if Part001.createTask_throws body
         then sendResponse 500 (ErrorBody "Внутренняя ошибка сервера")
         else sendResponse 400 (ErrorBody "Текст задачи обязателен"), db))
   ∧ table_ok (snd (Part001.deleteTask db a taskId))
   ∧ (String.eqb (trim (ToString (or_else (body !! "text") (JStr "")))) ""
      = false →
      table_ok (snd (Part001.updateTask toISODate current_timestamp db body
                       a taskId)))).
Proof.
  intros Hfs Hdb. split; split_and!.
  - by apply createTask_files_ok.
  - apply createTask_blank.
  - by apply deleteTask_files_ok.
  - by apply updateTask_files_ok.
  - by apply sql_createTask_table_ok.
  - apply sql_createTask_blank.
  - by apply sql_deleteTask_table_ok.
  - by apply sql_updateTask_table_ok.
Qed.
End TextInvariant.

Section TextSamples.
Import Js TaskFiles Text.

Lemma two_files_ok : files_ok Sample.two_files.
Proof.
  unfold Sample.two_files. apply createTask_files_ok, createTask_files_ok.
  apply map_Forall_empty.
Qed.

Lemma text_invariant_witness :
  files_ok (snd (createTask Datatypes.id Sample.clock_bob Sample.two_files
                   Sample.pay_rent Sample.bob))
  ∧ table_ok (snd (Part001.deleteTask [Sample.row_bob] 2
                     "task_1700000000100_bob")).
Proof.
  destruct (text_invariant Datatypes.id false Sample.two_files Sample.bob
              [Sample.row_bob] 2 Sample.clock_bob
              "2023-11-14T22:13:20.300Z" "2023-11-14 22:13:22"
              "task_1700000000100_bob" Sample.pay_rent (λ _, None))
    as [(Hcreate & _) (_ & _ & Hdelete & _)].
  - apply two_files_ok.
  - constructor; [reflexivity|constructor].
  - split; assumption.
Defined.
End TextSamples.

(** ** Creating a task *)

Section Create.
Import Js TaskFiles.

(** C3 fails in index.js (and part_000, which has the same [createTask]):
    the deadline is stored as it comes, [deadline || null]; only part_001
    tests it against the date pattern. *)
Theorem index_js_stores_deadline_verbatim :
  let body : object :=
    {[ "text" := JStr "Buy milk"; "deadline" := JStr "not-a-date" ]} in
  fst (IndexJs.createTask Sample.clock_alice ∅ body Sample.alice)
  = sendResponse 201
      (CreatedBody "task_1700000000200_alice" "Задача успешно создана"
         (Some (<["deadline" := JStr "not-a-date"]> Sample.task_alice)))
  ∧ (λ t : object, t !! "deadline")
      <$> loadUserTasks Datatypes.id
            (snd (IndexJs.createTask Sample.clock_alice ∅ body Sample.alice))
            Sample.alice
    = [Some (JStr "not-a-date")].
Proof. repeat split. Qed.

(** C4 fails in index.js (and part_000): priority and category are stored
    as they come, [priority || 'medium'] and [category || 'personal']; only
    part_001 compares them with the lists of valid values. *)
Theorem index_js_stores_priority_verbatim :
  let body : object :=
    {[ "text" := JStr "Buy milk"; "priority" := JStr "urgent";
       "category" := JStr "misc" ]} in
  statusCode (fst (IndexJs.createTask Sample.clock_alice ∅ body Sample.alice))
  = 201
  ∧ (λ t : object, (t !! "priority", t !! "category"))
      <$> loadUserTasks Datatypes.id
            (snd (IndexJs.createTask Sample.clock_alice ∅ body Sample.alice))
            Sample.alice
    = [(Some (JStr "urgent"), Some (JStr "misc"))].
Proof. repeat split. Qed.

Lemma includes_or_default (l : list string) (x dflt : string) :
  Part001.includes l dflt = true →
  Part001.includes l (if Part001.includes l x then x else dflt) = true.
Proof. intros H. by destruct (Part001.includes l x) eqn:E. Qed.

(** What part_001 stores when a create is answered with 201: a valid
    priority, a valid category, and a deadline that is null, matches the date
    pattern, or is the empty string (the rendering of an empty array, which
    the pattern test skips). *)
Lemma part_001_create_normalizes (c : clock) (ts : string)
    (db : Part001.table) (body : object) (a : Z) :
  statusCode (fst (Part001.createTask c ts db body a)) = 201 →
  ∃ r, snd (Part001.createTask c ts db body a) = db ++ [r]
       ∧ Part001.includes Part001.validPriorities (Part001.priority r) = true
       ∧ Part001.includes Part001.validCategories (Part001.category r) = true
       ∧ match Part001.deadline r with
         | None => True
         | Some d => d = "" ∨ Part001.dateRegex_test d = true
         end.
Proof.
  unfold Part001.createTask.
  destruct (Part001.createTask_throws body); [done|].
  destruct (String.eqb (trim _) ""); simpl; [done|].
  unfold Part001.insert_task. destruct (existsb _ db); simpl; [done|].
  intros _. eexists. split; [done|]. simpl. split_and!.
  - exact (includes_or_default Part001.validPriorities
             (ToString (or_else (body !! "priority") (JStr "medium")))
             "medium" eq_refl).
  - exact (includes_or_default Part001.validCategories
             (ToString (or_else (body !! "category") (JStr "personal")))
             "personal" eq_refl).
  - destruct (truthy (body !! "deadline")); [|done].
    destruct (String.eqb (ToString_value (body !! "deadline")) "") eqn:E.
    + left. by apply String.eqb_eq.
    + destruct (Part001.dateRegex_test _) eqn:Ed; [by right|done].
Qed.

(** In part_001 a malformed deadline string is dropped, as C3 says. *)
Lemma part_001_drops_malformed_deadline (c : clock) (ts : string)
    (db : Part001.table) (body : object) (a : Z) (d : string) :
  body !! "deadline" = Some (JStr d) → Part001.dateRegex_test d = false →
  statusCode (fst (Part001.createTask c ts db body a)) = 201 →
  ∃ r, snd (Part001.createTask c ts db body a) = db ++ [r]
       ∧ Part001.deadline r = None.
Proof.
  intros Hd Hre. unfold Part001.createTask.
  destruct (Part001.createTask_throws body); [done|].
  destruct (String.eqb (trim _) ""); simpl; [done|].
  unfold Part001.insert_task. destruct (existsb _ db); simpl; [done|].
  intros _. eexists. split; [done|]. simpl. rewrite Hd. simpl.
  destruct (String.eqb d "") eqn:E; simpl; [done|]. by rewrite E, Hre.
Qed.

(** The empty array as deadline: part_001 stores the empty string. *)
Lemma part_001_empty_array_deadline :
  snd (Part001.createTask Sample.clock_alice "2023-11-14 22:13:21" []
         {[ "text" := JStr "Buy milk"; "deadline" := JArr [] ]} 1)
  = [ {| Part001.id := "task_1700000000200_alice"; Part001.user_id := 1;
         Part001.text := "Buy milk"; Part001.completed := 0;
         Part001.priority := "medium"; Part001.category := "personal";
         Part001.deadline := Some "";
         Part001.created_at := "2023-11-14 22:13:21";
         Part001.updated_at := "2023-11-14 22:13:21" |} ].
Proof. reflexivity. Qed.
End Create.

(** ** The token codec *)

Section Codec.
Import Js Buffer.
Local Open Scope N_scope.

Lemma base64_char_digit (n : N) :
  n < 64 →
  unbase64 (base64_char n) = Some n
  ∧ Ascii.eqb (base64_char n) "=" = false.
Proof.
  intros Hn.
  assert (Hall : forallb
            (λ k, match unbase64 (base64_char (N.of_nat k)) with
                  | Some m => (m =? N.of_nat k)
                              && negb (Ascii.eqb (base64_char (N.of_nat k)) "=")
                  | None => false
                  end) (seq 0 64) = true) by reflexivity.
  rewrite forallb_forall in Hall.
  assert (Hin : In (N.to_nat n) (seq 0 64)) by (apply in_seq; lia).
  specialize (Hall (N.to_nat n) Hin). rewrite N2Nat.id in Hall.
  destruct (unbase64 (base64_char n)) as [m|]; [|done].
  apply andb_true_iff in Hall as [Hm Heq].
  apply N.eqb_eq in Hm as ->. by apply negb_true_iff in Heq.
Qed.

Lemma digits_cons (c : ascii) (s : string) (n : N) :
  n < 64 → c = base64_char n → digits (String c s) = n :: digits s.
Proof.
  intros Hn ->. simpl. destruct (base64_char_digit n Hn) as [-> ->]. done.
Qed.

Ltac div_mod := zify; Z.to_euclidean_division_equations; lia.

Lemma from_base64_toString_base64 (buf : list N) :
  Forall (λ b, b < 256) buf → from_base64 (toString_base64 buf) = buf.
Proof.
  unfold from_base64.
  assert (H : ∀ n buf, (length buf ≤ n)%nat → Forall (λ b, b < 256) buf →
                       of_digits (digits (toString_base64 buf)) = buf).
  { clear buf. induction n as [|n IH]; intros [|a [|b [|c rest]]] Hlen Hb;
      simpl in Hlen; try lia; try done.
    - apply Forall_cons in Hb as [Ha _]. cbn [toString_base64].
      rewrite (digits_cons _ _ (a / 4)) by (done || div_mod).
      rewrite (digits_cons _ _ (a mod 4 * 16)) by (done || div_mod).
      simpl. f_equal. div_mod.
    - apply Forall_cons in Hb as [Ha Hb]. apply Forall_cons in Hb as [Hb _].
      cbn [toString_base64].
      rewrite (digits_cons _ _ (a / 4)) by (done || div_mod).
      rewrite (digits_cons _ _ (a mod 4 * 16 + b / 16)) by (done || div_mod).
      rewrite (digits_cons _ _ (b mod 16 * 4)) by (done || div_mod).
      simpl. f_equal; [div_mod|]. f_equal. div_mod.
    - apply Forall_cons in Hb as [Ha Hb]. apply Forall_cons in Hb as [Hb Hc].
      apply Forall_cons in Hc as [Hc Hrest].
      change (toString_base64 (a :: b :: c :: rest))
        with (String (base64_char (a / 4))
                (String (base64_char (a mod 4 * 16 + b / 16))
                   (String (base64_char (b mod 16 * 4 + c / 64))
                      (String (base64_char (c mod 64))
                         (toString_base64 rest))))).
      rewrite (digits_cons _ _ (a / 4)) by (done || div_mod).
      rewrite (digits_cons _ _ (a mod 4 * 16 + b / 16)) by (done || div_mod).
      rewrite (digits_cons _ _ (b mod 16 * 4 + c / 64)) by (done || div_mod).
      rewrite (digits_cons _ _ (c mod 64)) by (done || div_mod).
      change (of_digits (?x :: ?y :: ?z :: ?w :: ?l))
        with ((x * 4 + y / 16) :: (y mod 16 * 16 + z / 4)
                :: (z mod 4 * 64 + w) :: of_digits l).
      rewrite IH by (done || simpl in Hlen; lia).
      f_equal; [div_mod|]. f_equal; [div_mod|]. f_equal. div_mod. }
  intros Hb. by apply (H (length buf)).
Qed.

Lemma utf8_decode_ascii (buf : list N) :
  Forall (λ b, b < 128) buf → utf8_decode None buf = buf.
Proof.
  induction 1 as [|b buf Hb _ IH]; simpl; [done|].
  unfold lead. destruct (b <=? 127) eqn:E.
  - simpl. by rewrite IH.
  - apply N.leb_gt in E. lia.
Qed.

Lemma of_octets_octets (s : string) : of_octets (octets s) = s.
Proof.
  unfold of_octets, octets. rewrite map_map.
  erewrite map_ext; [|intros c; apply ascii_N_embedding].
  rewrite map_id. apply String.string_of_list_ascii_of_string.
Qed.

Lemma octets_bounded (s : string) : Forall (λ b, b < 256) (octets s).
Proof.
  unfold octets. apply Forall_forall. intros b Hb.
  apply list_elem_of_fmap in Hb as (c & -> & _). apply N_ascii_bounded.
Qed.

(** Decoding what was encoded gives the text back. *)
Lemma token_codec_roundtrip (s : string) :
  is_ascii s → toString_utf8 (from_base64 (toString_base64 (from s))) = s.
Proof.
  intros Hs. unfold from, toString_utf8.
  rewrite from_base64_toString_base64 by apply octets_bounded.
  rewrite utf8_decode_ascii by done. apply of_octets_octets.
Qed.
End Codec.

(** ** Logging in *)

Section Login.
Import Js TaskFiles.

(** C7. A login for a name that is not in the credential store and a login
    for a name that is there with a password that does not match its hash
    are answered alike: status 400 with the body
    [{ error: 'Неверные данные' }], in index.js and in part_001 (whose
    [handleLogin] part_000 shares). Both requests carry a name and a
    password; a missing one is a third cause with an answer of its own. *)
Theorem login_failures_alike
    (bcrypt_compare : json → string → option bool)
    (select_user : json → Part001.db_get_result)
    (users : list IndexJs.user) (user : IndexJs.user) (row : Part001.user_row)
    (unknown known : object) (name1 password1 name2 password2 : json) :
  unknown !! "username" = Some name1 → unknown !! "password" = Some password1 →
  js_truthy name1 = true → js_truthy password1 = true →
  known !! "username" = Some name2 → known !! "password" = Some password2 →
  js_truthy name2 = true → js_truthy password2 = true →
  (* the first name is in neither store *)
  List.find (λ u, strict_eq (Some (IndexJs.username u)) (Some name1)) users
  = None →
  select_user name1 = Part001.NoRow →
  (* the second name is in both, with another password *)
  List.find (λ u, strict_eq (Some (IndexJs.username u)) (Some name2)) users
  = Some user →
  bcrypt_compare password2 (IndexJs.password user) = Some false →
  select_user name2 = Part001.Row row →
  bcrypt_compare password2 (Part001.u_password row) = Some false →
  (IndexJs.handleLogin bcrypt_compare users unknown
   = sendResponse 400 (ErrorBody "Неверные данные")
   ∧ IndexJs.handleLogin bcrypt_compare users known
     = IndexJs.handleLogin bcrypt_compare users unknown)
  ∧
  (Part001.handleLogin select_user bcrypt_compare unknown
   = Some (sendResponse 400 (ErrorBody "Неверные данные"))
   ∧ Part001.handleLogin select_user bcrypt_compare known
     = Part001.handleLogin select_user bcrypt_compare unknown).
Proof.
  intros Hn1 Hp1 Htn1 Htp1 Hn2 Hp2 Htn2 Htp2 Hfind1 Hsel1 Hfind2 Hcmp2
    Hsel2 Hcmpr2.
  unfold IndexJs.handleLogin, Part001.handleLogin.
  rewrite Hn1, Hp1, Hn2, Hp2, Htn1, Htp1, Htn2, Htp2.
  rewrite Hfind1, Hfind2, Hcmp2, Hsel1, Hsel2, Hcmpr2. done.
Qed.

Lemma login_failures_alike_witness :
  IndexJs.handleLogin Sample.toy_compare [Sample.user_alice]
    {[ "username" := JStr "alice"; "password" := JStr "looking-glass" ]}
  = IndexJs.handleLogin Sample.toy_compare [Sample.user_alice]
      {[ "username" := JStr "bob"; "password" := JStr "wonderland" ]}
  ∧ Part001.handleLogin Sample.select_alice Sample.toy_compare
      {[ "username" := JStr "alice"; "password" := JStr "looking-glass" ]}
    = Part001.handleLogin Sample.select_alice Sample.toy_compare
        {[ "username" := JStr "bob"; "password" := JStr "wonderland" ]}.
Proof.
  destruct (login_failures_alike Sample.toy_compare Sample.select_alice
              [Sample.user_alice] Sample.user_alice Sample.row_user_alice
              {[ "username" := JStr "bob"; "password" := JStr "wonderland" ]}
              {[ "username" := JStr "alice";
                 "password" := JStr "looking-glass" ]}
              (JStr "bob") (JStr "wonderland")
              (JStr "alice") (JStr "looking-glass"))
    as [[_ Hfiles] [_ Htable]]; try reflexivity.
  split; assumption.
Defined.

(** The samples are what [handleRegister] and [handleLogin] produce. *)
Lemma user_a_b_registered :
  IndexJs.handleRegister Sample.toy_hash Sample.clock_bob []
    {[ "username" := JStr "a:b"; "email" := JStr "ab@example.org";
       "password" := JStr "secret" ]}
  = (sendResponse 201 (MessageBody "Пользователь создан успешно"),
     [Sample.user_a_b]).
Proof. reflexivity. Qed.

Lemma user_a_b_logs_in :
  IndexJs.handleLogin Sample.toy_compare [Sample.user_a_b]
    {[ "username" := JStr "a:b"; "password" := JStr "secret" ]}
  = sendResponse 200
      (LoginBody "MTcwMDAwMDAwMDEwMDphOmI=" (JStr "1700000000100")
         (JStr "a:b")).
Proof. reflexivity. Qed.

(** C8 fails in index.js for a user whose name holds a colon:
    [decoded.split(':')] cuts the name at its first colon, so the token that
    [handleLogin] issued to the user resolves to nobody. *)
Theorem token_of_colon_name_rejected :
  IndexJs.issue_token (IndexJs.id Sample.user_a_b)
    (IndexJs.username Sample.user_a_b)
  = "MTcwMDAwMDAwMDEwMDphOmI="
  ∧ Buffer.toString_utf8 (Buffer.from_base64 "MTcwMDAwMDAwMDEwMDphOmI=")
    = "1700000000100:a:b"
  ∧ IndexJs.split ":" "1700000000100:a:b" = ["1700000000100"; "a"; "b"]
  ∧ IndexJs.authenticate [Sample.user_a_b]
      (Some "Basic MTcwMDAwMDAwMDEwMDphOmI=")
    = None.
Proof. repeat split. Qed.

(** The same token scheme works for a name without a colon. *)
Lemma token_of_alice_accepted :
  IndexJs.authenticate [Sample.user_alice]
    (Some ("Basic " +:+ IndexJs.issue_token (IndexJs.id Sample.user_alice)
                          (IndexJs.username Sample.user_alice)))
  = Some {| IndexJs.userId := "1700000000001";
            IndexJs.name := JStr "alice" |}.
Proof. reflexivity. Qed.

(** In index.js the id of a user is the time of registration in ms: two
    registrations in the same millisecond give two users one id, hence one
    tasks file. *)
Lemma same_millisecond_same_id :
  snd (IndexJs.handleRegister Sample.toy_hash Sample.clock_bob
         [Sample.user_a_b]
         {[ "username" := JStr "carol"; "email" := JStr "carol@example.org";
            "password" := JStr "secret" ]})
  = [ Sample.user_a_b;
      {| IndexJs.id := IndexJs.id Sample.user_a_b;
         IndexJs.username := JStr "carol";
         IndexJs.email := JStr "carol@example.org";
         IndexJs.password := "$2a$10$secret";
         IndexJs.created_at := "2023-11-14T22:13:20.100Z" |} ].
Proof. reflexivity. Qed.

(** [authenticate] gives up only when the header is missing or does not
    start with [Basic ], or when no stored user has the decoded pair. *)
Lemma authenticate_None (users : list IndexJs.user)
    (authorization : option string) :
  IndexJs.authenticate users authorization = None →
  authorization = None
  ∨ (∃ h, authorization = Some h ∧ IndexJs.startsWith "Basic " h = false)
  ∨ (∃ h, authorization = Some h
          ∧ let parts := IndexJs.split ":"
                           (Buffer.toString_utf8
                              (Buffer.from_base64 (IndexJs.slice 6 h))) in
            ∀ u, u ∈ users →
                 strict_eq (Some (JStr (IndexJs.id u)))
                   (JStr <$> parts !! 0%nat)
                 && strict_eq (Some (IndexJs.username u))
                      (JStr <$> parts !! 1%nat) = false).
Proof.
  unfold IndexJs.authenticate. destruct authorization as [h|]; [|by left].
  destruct (IndexJs.startsWith "Basic " h) eqn:E; simpl;
    [|intros _; right; left; eauto].
  destruct (List.find _ users) as [u|] eqn:Hfind; [done|]. intros _.
  right. right. exists h. split; [done|]. intros u Hu.
  apply list_elem_of_In in Hu.
  exact (List.find_none _ _ Hfind u Hu).
Qed.
Lemma octets_app (s1 s2 : string) :
  Buffer.octets (s1 +:+ s2) = Buffer.octets s1 ++ Buffer.octets s2.
Proof.
  unfold Buffer.octets. rewrite <- map_app. f_equal.
  induction s1 as [|c s1 IH]; [done|].
  change (String c s1 +:+ s2) with (String c (s1 +:+ s2)). simpl.
  by rewrite IH.
Qed.

Lemma split_no_colon (s : string) :
  IndexJs.no_colon s → IndexJs.split ":" s = [s].
Proof.
  unfold IndexJs.no_colon. induction s as [|c s IH]; simpl; [done|].
  intros [Hc Hs]%Forall_cons. rewrite (IH Hs).
  by apply Ascii.eqb_neq in Hc as ->.
Qed.

Lemma split_at_colon (s rest : string) :
  IndexJs.no_colon s →
  IndexJs.split ":" (s +:+ ":" +:+ rest) = s :: IndexJs.split ":" rest.
Proof.
  unfold IndexJs.no_colon. induction s as [|c s IH]; [done|].
  intros [Hc Hs]%Forall_cons.
  change (String c s +:+ ":" +:+ rest) with (String c (s +:+ ":" +:+ rest)).
  simpl. rewrite (IH Hs). by apply Ascii.eqb_neq in Hc as ->.
Qed.

Lemma strict_eq_string (v : json) (s : string) :
  strict_eq (Some v) (Some (JStr s)) = true → v = JStr s.
Proof.
  destruct v; simpl; try done. by intros ->%String.eqb_eq.
Qed.

(** The part of C8 that the code keeps: the token issued to a stored user
    whose id and name are ASCII text without a colon resolves to the id and
    the name of that user. *)
Lemma token_resolves (users : list IndexJs.user) (u : IndexJs.user)
    (n : string) :
  u ∈ users → IndexJs.username u = JStr n →
  Buffer.is_ascii (IndexJs.id u) → Buffer.is_ascii n →
  IndexJs.no_colon (IndexJs.id u) → IndexJs.no_colon n →
  IndexJs.authenticate users
    (Some ("Basic " +:+ IndexJs.issue_token (IndexJs.id u)
                          (IndexJs.username u)))
  = Some {| IndexJs.userId := IndexJs.id u;
            IndexJs.name := IndexJs.username u |}.
Proof.
  intros Hu Hn Hai Han Hci Hcn. unfold IndexJs.authenticate.
  change (IndexJs.startsWith "Basic " ("Basic " +:+ ?t)) with true.
  change (IndexJs.slice 6 ("Basic " +:+ ?t)) with t.
  cbn [negb]. unfold IndexJs.issue_token. rewrite Hn. cbn [ToString].
  rewrite token_codec_roundtrip.
  2:{ unfold Buffer.is_ascii. rewrite !octets_app.
      repeat (apply Forall_app; split); try done.
      repeat constructor. }
  rewrite split_at_colon, split_no_colon by done.
  cbn [lookup list_lookup fmap option_fmap option_map].
  destruct (List.find _ users) as [u'|] eqn:Hfind.
  - apply List.find_some in Hfind as [_ [Hid Hname]%andb_true_iff].
    apply strict_eq_string in Hid. apply strict_eq_string in Hname.
    injection Hid as Hid. by rewrite Hid, Hname.
  - apply list_elem_of_In in Hu.
    pose proof (List.find_none _ _ Hfind u Hu) as Hnone.
    cbv beta in Hnone. rewrite Hn in Hnone. simpl in Hnone.
    by rewrite !String.eqb_refl in Hnone.
Qed.
End Login.

(** * Further properties of the handlers *)

(** ** Registration, login and the token together (index.js) *)

Section Accounts.
Import Js TaskFiles.


Lemma existsb_false {A : Type} (p : A → bool) (l : list A) (x : A) :
  existsb p l = false → x ∈ l → p x = false.
Proof.
  intros H Hx. destruct (p x) eqn:E; [|done].
  assert (existsb p l = true) as Ht; [|congruence].
  apply existsb_exists. exists x. by rewrite <- list_elem_of_In.
Qed.



(** The decimal rendering of an integer holds digits and at most a sign. *)
Lemma pretty_N_go_chars (P : ascii → Prop) (x : N) (s : string) :
  (∀ d, P (pretty_N_char d)) →
  Forall P (String.list_ascii_of_string s) →
  Forall P (String.list_ascii_of_string (pretty_N_go x s)).
Proof.
  intros Hd. revert s. induction (N.lt_wf_0 x) as [x _ IH]; intros s Hs.
  destruct (decide (x = 0)%N) as [->|Hx]; [by rewrite pretty_N_go_0|].
  rewrite pretty_N_go_step by lia. apply IH.
  - apply N.div_lt; lia.
  - simpl. by constructor.
Qed.

Lemma pretty_Z_chars (P : ascii → Prop) (z : Z) :
  (∀ d, P (pretty_N_char d)) → P "-"%char →
  Forall P (String.list_ascii_of_string (pretty z)).
Proof.
  intros Hd Hdash.
  assert (HN : ∀ n : N, Forall P (String.list_ascii_of_string (pretty n))).
  { intros n. unfold pretty, pretty_N. destruct (decide (n = 0)%N).
    - constructor; [apply (Hd 0%N)|constructor].
    - apply pretty_N_go_chars; [done|constructor]. }
  destruct z as [|p|p]; unfold pretty, pretty_Z.
  - constructor; [apply (Hd 0%N)|constructor].
  - apply HN.
  - change ("-" +:+ pretty p) with (String "-" (pretty p)). simpl.
    constructor; [done|apply HN].
Qed.

Lemma pretty_N_char_cases (P : ascii → Prop) :
  P "0"%char → P "1"%char → P "2"%char → P "3"%char → P "4"%char →
  P "5"%char → P "6"%char → P "7"%char → P "8"%char → P "9"%char →
  ∀ d, P (pretty_N_char d).
Proof.
  intros. unfold pretty_N_char. repeat case_match; done.
Qed.

Lemma pretty_Z_is_ascii (z : Z) : Buffer.is_ascii (pretty z).
Proof.
  unfold Buffer.is_ascii, Buffer.octets. apply Forall_fmap.
  apply pretty_Z_chars; [|by vm_compute].
  apply pretty_N_char_cases; by vm_compute.
Qed.

Lemma pretty_Z_no_colon (z : Z) : IndexJs.no_colon (pretty z).
Proof.
  unfold IndexJs.no_colon.
  apply pretty_Z_chars; [|discriminate].
  apply (pretty_N_char_cases (λ c, c ≠ ":"%char)); discriminate.
Qed.

Lemma find_app_new {A : Type} (p : A → bool) (l : list A) (x : A) :
  (∀ y, y ∈ l → p y = false) → p x = true →
  List.find p (l ++ [x]) = Some x.
Proof.
  intros Hl Hx. induction l as [|y l IH]; simpl.
  - by rewrite Hx.
  - rewrite (Hl y (list_elem_of_here _ _)). apply IH.
    intros z Hz. apply Hl. by constructor.
Qed.

(** X2. Register, log in, call: when [handleRegister] accepts a user whose
    name is a string of ASCII characters without a colon, a login with the
    same name and password is answered with 200 and a token, and
    [authenticate] resolves that token to the id and the name of the new
    user. bcrypt is any function pair for which the hash of a password
    compares equal to that password. *)
Theorem register_login_authenticate
    (bcrypt_hash : json → option string)
    (bcrypt_compare : json → string → option bool)
    (c : clock) (users : list IndexJs.user) (registration login : object)
    (n : string) (e p : json) :
  (∀ h, bcrypt_hash p = Some h → bcrypt_compare p h = Some true) →
  registration !! "username" = Some (JStr n) →
  registration !! "email" = Some e →
  registration !! "password" = Some p →
  login !! "username" = Some (JStr n) → login !! "password" = Some p →
  Buffer.is_ascii n → IndexJs.no_colon n →
  statusCode (fst (IndexJs.handleRegister bcrypt_hash c users registration))
  = 201 →
  let users' := snd (IndexJs.handleRegister bcrypt_hash c users registration) in
  let id := pretty (date_now c) in
  IndexJs.handleLogin bcrypt_compare users' login
  = sendResponse 200
      (LoginBody (IndexJs.issue_token id (JStr n)) (JStr id) (JStr n))
  ∧ IndexJs.authenticate users'
      (Some ("Basic " +:+ IndexJs.issue_token id (JStr n)))
    = Some {| IndexJs.userId := id; IndexJs.name := JStr n |}.
Proof.
  intros Hbcrypt Hu He Hp Hlu Hlp Hascii Hcolon. unfold IndexJs.handleRegister.
  rewrite Hu, He, Hp.
  destruct (negb (js_truthy (JStr n)) || negb (js_truthy e)
            || negb (js_truthy p)) eqn:Htruthy; [discriminate|].
  destruct (existsb _ users) eqn:Hex; [discriminate|].
  destruct (bcrypt_hash p) as [h|] eqn:Hh; [|discriminate].
  intros _. cbn [snd].
  apply orb_false_elim in Htruthy as [[Htn _]%orb_false_elim Htp].
  set (u := {| IndexJs.id := pretty (date_now c);
               IndexJs.username := JStr n; IndexJs.email := e;
               IndexJs.password := h; IndexJs.created_at := iso_first c |}).
  split.
  - unfold IndexJs.handleLogin. rewrite Hlu, Hlp, Htn, Htp. cbn [orb].
    rewrite (find_app_new _ users u).
    + cbn [IndexJs.password u]. by rewrite (Hbcrypt h eq_refl).
    + intros y Hy. pose proof (existsb_false _ _ y Hex Hy) as H.
      by apply orb_false_elim in H as [H _].
    + simpl. apply String.eqb_refl.
  - apply (token_resolves (users ++ [u]) u n);
      try done; try apply pretty_Z_is_ascii; try apply pretty_Z_no_colon.
    apply elem_of_app. right. by apply list_elem_of_singleton.
Qed.

Lemma register_login_authenticate_witness :
  IndexJs.authenticate
    (snd (IndexJs.handleRegister Sample.toy_hash Sample.clock_bob
            [Sample.user_alice]
            {[ "username" := JStr "bob"; "email" := JStr "bob@example.org";
               "password" := JStr "secret" ]}))
    (Some ("Basic "
           +:+ IndexJs.issue_token (pretty 1700000000100) (JStr "bob")))
  = Some {| IndexJs.userId := pretty 1700000000100;
            IndexJs.name := JStr "bob" |}.
Proof.
  refine (proj2 (register_login_authenticate Sample.toy_hash
                   Sample.toy_compare Sample.clock_bob [Sample.user_alice]
                   {[ "username" := JStr "bob";
                      "email" := JStr "bob@example.org";
                      "password" := JStr "secret" ]}
                   {[ "username" := JStr "bob"; "password" := JStr "secret" ]}
                   "bob" (JStr "bob@example.org") (JStr "secret")
                   _ _ _ _ _ _ _ _ _)); try reflexivity.
  - intros h [= <-]. reflexivity.
  - repeat constructor.
  - repeat constructor; discriminate.
Defined.

(** X3. [authenticate] resolves a header only to a stored user: the header
    starts with [Basic ], and the first two colon-separated parts of the
    decoded token are the id of that user and its name, which is a string.
    A user stored with a name that is not a string is never resolved. *)
Theorem authenticate_sound (users : list IndexJs.user)
    (authorization : option string) (who : IndexJs.identity) :
  IndexJs.authenticate users authorization = Some who →
  ∃ header u n,
    authorization = Some header
    ∧ IndexJs.startsWith "Basic " header = true
    ∧ u ∈ users
    ∧ who = {| IndexJs.userId := IndexJs.id u;
               IndexJs.name := IndexJs.username u |}
    ∧ IndexJs.username u = JStr n
    ∧ let parts :=
        IndexJs.split ":"
          (Buffer.toString_utf8
             (Buffer.from_base64 (IndexJs.slice 6 header))) in
      parts !! 0%nat = Some (IndexJs.id u) ∧ parts !! 1%nat = Some n.
Proof.
  unfold IndexJs.authenticate. destruct authorization as [header|]; [|done].
  destruct (IndexJs.startsWith "Basic " header) eqn:Hstart; [|done].
  cbn [negb].
  destruct (List.find _ users) as [u|] eqn:Hfind; [|done].
  intros [= <-].
  apply List.find_some in Hfind as [Hin [Hid Hname]%andb_true_iff].
  destruct (IndexJs.split ":" _ !! 0%nat) as [i|] eqn:H0; [|done].
  destruct (IndexJs.split ":" _ !! 1%nat) as [n|] eqn:H1;
    [|by destruct (IndexJs.username u)].
  apply strict_eq_string in Hname.
  simpl in Hid. apply String.eqb_eq in Hid as <-.
  exists header, u, n. rewrite list_elem_of_In. by rewrite H0, H1.
Qed.

Lemma authenticate_sound_witness :
  ∃ header u n,
    Some ("Basic MTcwMDAwMDAwMDAwMTphbGljZQ==") = Some header
    ∧ IndexJs.startsWith "Basic " header = true
    ∧ u ∈ [Sample.user_alice]
    ∧ {| IndexJs.userId := "1700000000001"; IndexJs.name := JStr "alice" |}
      = {| IndexJs.userId := IndexJs.id u;
           IndexJs.name := IndexJs.username u |}
    ∧ IndexJs.username u = JStr n
    ∧ let parts :=
        IndexJs.split ":"
          (Buffer.toString_utf8
             (Buffer.from_base64 (IndexJs.slice 6 header))) in
      parts !! 0%nat = Some (IndexJs.id u) ∧ parts !! 1%nat = Some n.
Proof.
  apply (authenticate_sound [Sample.user_alice]
           (Some "Basic MTcwMDAwMDAwMDAwMTphbGljZQ==")).
  reflexivity.
Defined.
End Accounts.

(** ** Tasks in JSON files: create, list, update *)

Section MoreTaskFiles.
Import Js TaskFiles.
Context {Id : Type} (render : Id → string).

(** X4. A task that [createTask] accepts is listed last: after an answer
    with status 201 the list of the caller is the list before followed by
    the task of the answer. That task has the eight fields of a task and no
    other, the generated id, and [completed] false. *)
Theorem create_then_list (c : clock) (fs : files) (body : object) (A : Id) :
  statusCode (fst (createTask render c fs body A)) = 201 →
  ∃ t,
    fst (createTask render c fs body A)
    = sendResponse 201
        (CreatedBody (fresh_task_id c) "Задача успешно создана" (Some t))
    ∧ getTasks render (snd (createTask render c fs body A)) A
      = (sendResponse 200 (TasksBody (loadUserTasks render fs A ++ [t])),
         snd (createTask render c fs body A))
    ∧ t !! "id" = Some (JStr (fresh_task_id c))
    ∧ t !! "completed" = Some (JBool false)
    ∧ dom t = list_to_set ["id"; "text"; "priority"; "category"; "deadline";
                           "completed"; "created_at"; "updated_at"].
Proof.
  unfold createTask.
  destruct (negb (truthy (body !! "text"))); [discriminate|].
  destruct (body !! "text") as [[| | |s| |]|]; try discriminate.
  destruct (String.eqb (trim s) ""); [discriminate|]. intros _.
  eexists. split; [reflexivity|]. cbn [snd].
  split; [unfold getTasks; by rewrite load_save|].
  split; [apply lookup_insert_eq|].
  split; [by rewrite !lookup_insert_ne, lookup_insert_eq by done|].
  rewrite !dom_insert_L, dom_empty_L. simpl. set_solver.
Qed.

(** X5. [updateTask] changes one task of the caller's file: the first one
    with the given id. The file keeps its length, every other position keeps
    its task, also a later task with the same id, and no task before that
    position has the id. *)
Theorem update_touches_one_task (coercing : bool) (now : string)
    (fs : files) (body : object) (A : Id) (taskId : string) :
  statusCode (fst (handleApiRequest render coercing fs A
                     (PUT_task taskId now body))) = 200 →
  let after :=
    loadUserTasks render
      (snd (handleApiRequest render coercing fs A (PUT_task taskId now body)))
      A in
  ∃ i t,
    loadUserTasks render fs A !! i = Some t ∧ has_id taskId t = true
    ∧ (∀ j t', (j < i)%nat → loadUserTasks render fs A !! j = Some t' →
               has_id taskId t' = false)
    ∧ length after = length (loadUserTasks render fs A)
    ∧ ∀ j, j ≠ i → after !! j = loadUserTasks render fs A !! j.
Proof.
  assert (Hfirst : ∀ (l : list object) i,
            findIndex (has_id taskId) l = Some i →
            ∃ t, l !! i = Some t ∧ has_id taskId t = true
                 ∧ ∀ j t', (j < i)%nat → l !! j = Some t' →
                           has_id taskId t' = false).
  { induction l as [|x l IH]; intros i; simpl; [done|].
    destruct (has_id taskId x) eqn:Hx.
    - intros [= <-]. exists x. split_and!; [done|done|]. intros j t' Hj. lia.
    - destruct (findIndex (has_id taskId) l) as [k|]; [|done].
      intros [= <-]. destruct (IH k eq_refl) as (t & Ht & Hid & Hbefore).
      exists t. split_and!; [done|done|].
      intros [|j] t' Hj; simpl; [by intros [= <-]|].
      apply Hbefore. lia. }
  simpl. destruct coercing; unfold updateTask_coercing, updateTask;
    destruct (findIndex _ _) as [i|] eqn:Hi; try discriminate; intros _;
    destruct (Hfirst _ i Hi) as (t & Ht & Hid & Hbefore);
    exists i, t; cbn [snd]; rewrite load_save;
    (split_and!; [done|done|done|apply length_insert|]);
    intros j Hj; by apply list_lookup_insert_ne.
Qed.
End MoreTaskFiles.

Section MoreTaskFilesSamples.
Import Js TaskFiles.

Lemma create_then_list_witness :
  ∃ t,
    fst (createTask Datatypes.id Sample.clock_alice ∅ Sample.buy_milk
           Sample.alice)
    = sendResponse 201
        (CreatedBody (fresh_task_id Sample.clock_alice)
           "Задача успешно создана" (Some t))
    ∧ getTasks Datatypes.id
        (snd (createTask Datatypes.id Sample.clock_alice ∅ Sample.buy_milk
                Sample.alice)) Sample.alice
      = (sendResponse 200
           (TasksBody (loadUserTasks Datatypes.id ∅ Sample.alice ++ [t])),
         snd (createTask Datatypes.id Sample.clock_alice ∅ Sample.buy_milk
                Sample.alice))
    ∧ t !! "id" = Some (JStr (fresh_task_id Sample.clock_alice))
    ∧ t !! "completed" = Some (JBool false)
    ∧ dom t = list_to_set ["id"; "text"; "priority"; "category"; "deadline";
                           "completed"; "created_at"; "updated_at"].
Proof.
  apply (create_then_list Datatypes.id Sample.clock_alice ∅ Sample.buy_milk
           Sample.alice).
  reflexivity.
Defined.

Lemma update_touches_one_task_witness :
  ∃ i t,
    loadUserTasks Datatypes.id Sample.two_files Sample.alice !! i = Some t
    ∧ has_id "task_1700000000200_alice" t = true
    ∧ (∀ j t', (j < i)%nat →
               loadUserTasks Datatypes.id Sample.two_files Sample.alice !! j
               = Some t' →
               has_id "task_1700000000200_alice" t' = false)
    ∧ length
        (loadUserTasks Datatypes.id
           (snd (handleApiRequest Datatypes.id false Sample.two_files
                   Sample.alice
                   (PUT_task "task_1700000000200_alice"
                      "2023-11-14T22:13:20.300Z"
                      {[ "completed" := JBool true ]}))) Sample.alice)
      = length (loadUserTasks Datatypes.id Sample.two_files Sample.alice)
    ∧ ∀ j, j ≠ i →
        loadUserTasks Datatypes.id
          (snd (handleApiRequest Datatypes.id false Sample.two_files
                  Sample.alice
                  (PUT_task "task_1700000000200_alice"
                     "2023-11-14T22:13:20.300Z"
                     {[ "completed" := JBool true ]}))) Sample.alice !! j
        = loadUserTasks Datatypes.id Sample.two_files Sample.alice !! j.
Proof.
  apply (update_touches_one_task Datatypes.id false
           "2023-11-14T22:13:20.300Z" Sample.two_files
           {[ "completed" := JBool true ]} Sample.alice
           "task_1700000000200_alice").
  reflexivity.
Defined.
End MoreTaskFilesSamples.

(** ** Tasks in SQLite: create, update, list *)

Section MoreTable.
Import Js Part001.

(** X6. The answers of [createTask] in part_001. For a body that is a JSON
    object: the 500 of the catch block exactly when one of the [String]
    conversions of the body throws (an object with a [toString] property as
    text, priority, category or deadline); otherwise 400 exactly when the
    text is blank after [String] and [trim]; otherwise the 500 of the INSERT
    exactly when the generated id is already a key of the table; otherwise
    201. Only a 201 changes the table: it appends one row, with the
    generated id, the id of the caller as owner and [completed] 0. The
    payload [null] is answered by the 500 of the catch block, and a payload
    that is neither [null] nor an object by the 400. *)
Theorem part_001_create_outcome (c : clock) (current_timestamp : string)
    (db : table) (body : object) (userId : Z) (parsed : json) :
  let throws := createTask_throws body in
  let text := trim (ToString (or_else (body !! "text") (JStr ""))) in
  let taken := fresh_task_id c ∈ map id db in
  let result := createTask c current_timestamp db body userId in
  (fst result = sendResponse 500 (ErrorBody "Внутренняя ошибка сервера")
   ↔ throws = true)
  ∧ (fst result = sendResponse 400 (ErrorBody "Текст задачи обязателен")
     ↔ throws = false ∧ text = "")
  ∧ (fst result = sendResponse 500 (ErrorBody "Ошибка при создании задачи")
     ↔ throws = false ∧ text ≠ "" ∧ taken)
  ∧ (statusCode (fst result) = 201 ↔ throws = false ∧ text ≠ "" ∧ ¬ taken)
  ∧ (statusCode (fst result) ≠ 201 → snd result = db)
  ∧ (statusCode (fst result) = 201 →
     ∃ r, snd result = db ++ [r] ∧ id r = fresh_task_id c
          ∧ user_id r = userId ∧ completed r = 0 ∧ Part001.text r = text
          ∧ created_at r = current_timestamp
          ∧ updated_at r = current_timestamp)
  ∧ createTask_payload c current_timestamp db JNull userId
    = (sendResponse 500 (ErrorBody "Внутренняя ошибка сервера"), db)
  ∧ (parsed ≠ JNull → (∀ props, parsed ≠ JObj props) →
     createTask_payload c current_timestamp db parsed userId
     = (sendResponse 400 (ErrorBody "Текст задачи обязателен"), db)).
Proof.
  intros throws text taken result.
  assert (Hother : parsed ≠ JNull → (∀ props, parsed ≠ JObj props) →
            createTask_payload c current_timestamp db parsed userId
            = (sendResponse 400 (ErrorBody "Текст задачи обязателен"), db)).
  { intros Hnull Hobj. destruct parsed; try done. by destruct (Hobj props). }
  unfold result, createTask. fold throws text.
  assert (Htaken : existsb (λ r, String.eqb (id r) (fresh_task_id c)) db = true
                   ↔ taken).
  { unfold taken. rewrite existsb_exists, list_elem_of_fmap. split.
    - intros (r & Hr & Heq). apply String.eqb_eq in Heq.
      exists r. split; [done|]. by apply list_elem_of_In.
    - intros (r & Heq & Hr). exists r. split; [by apply list_elem_of_In|].
      by apply String.eqb_eq. }
  destruct throws.
  { simpl. split_and!; try done; intuition congruence. }
  destruct (String.eqb text "") eqn:Etext.
  - apply String.eqb_eq in Etext. simpl.
    split_and!; try done; intuition congruence.
  - apply String.eqb_neq in Etext. unfold insert_task.
    destruct (existsb _ db) eqn:Eex; simpl.
    + assert taken by by apply Htaken.
      split_and!; try done; intuition congruence.
    + assert (¬ taken) by (rewrite <- Htaken; congruence).
      split_and!; try done; try (intuition congruence).
      intros _. eexists. by split_and!.
Qed.

(** X7. An update in part_001 never changes the identity of a row: the
    table keeps its rows in place with their ids, owners and creation
    stamps, and every row that is not the caller's row with the given id
    stays exactly as it is. When the body is accepted, the answer is 200 if
    the caller has such a row and 404 if not. *)
Theorem part_001_update_keeps_identity (toISODate : json → option string)
    (current_timestamp : string) (db : table) (body : object) (userId : Z)
    (taskId : string) :
  let db' := snd (updateTask toISODate current_timestamp db body userId
                   taskId) in
  map id db' = map id db
  ∧ map user_id db' = map user_id db
  ∧ map created_at db' = map created_at db
  ∧ (∀ i r, db !! i = Some r → selected taskId userId r = false →
            db' !! i = Some r)
  ∧ (is_Some (sanitizeTaskData toISODate body) →
     statusCode (fst (updateTask toISODate current_timestamp db body userId
                        taskId))
     = if existsb (selected taskId userId) db then 200 else 404).
Proof.
  intros db'. unfold db', updateTask.
  destruct (sanitizeTaskData toISODate body) as [d|].
  2:{ split_and!; done. }
  unfold update_task.
  set (f := λ r, if selected taskId userId r
                 then {| id := id r; user_id := user_id r;
                         text := td_text d;
                         completed :=
                           if truthy (body !! "completed") then 1 else 0;
                         priority := td_priority d;
                         category := td_category d;
                         deadline := td_deadline d;
                         created_at := created_at r;
                         updated_at := current_timestamp |}
                 else r).
  assert (Hf : ∀ r, id (f r) = id r ∧ user_id (f r) = user_id r
                    ∧ created_at (f r) = created_at r).
  { intros r. unfold f. by destruct (selected taskId userId r). }
  assert (Hstatus : (length (List.filter (selected taskId userId) db) =? 0)%nat
                    = negb (existsb (selected taskId userId) db)).
  { destruct (existsb (selected taskId userId) db) eqn:Eex.
    - apply existsb_exists in Eex as (r & Hr & Hsel).
      apply list_elem_of_In in Hr.
      pose proof (filter_some_length _ db r Hr Hsel) as Hlen.
      by destruct (length (List.filter (selected taskId userId) db)).
    - rewrite filter_none_length; [done|].
      intros x Hx. by eapply existsb_false. }
  cbv beta iota zeta. rewrite Hstatus.
  assert (Hdb : ∀ b : bool,
            snd (if negb b return (response object * table)
                 then (sendResponse 404 (ErrorBody "Задача не найдена"),
                       map f db)
                 else (sendResponse 200 (MessageBody "Задача обновлена"),
                       map f db)) = map f db) by by intros [].
  rewrite Hdb. split_and!.
  - rewrite map_map. apply map_ext. intros r. apply Hf.
  - rewrite map_map. apply map_ext. intros r. apply Hf.
  - rewrite map_map. apply map_ext. intros r. apply Hf.
  - intros i r Hi Hsel.
    assert (Hlookup : map f db !! i = Some (f r)).
    { clear -Hi. revert i Hi. induction db as [|x l IH]; intros [|i] Hi;
        simplify_eq/=; [done|by apply IH]. }
    etrans; [exact Hlookup|]. unfold f. by rewrite Hsel.
  - intros _. by destruct (existsb (selected taskId userId) db).
Qed.

Lemma newer_first_total : Total newer_first.
Proof. intros a b. unfold newer_first. apply (total String.le). Qed.

Lemma newer_first_trans : Transitive newer_first.
Proof.
  intros a b c Hab Hbc. unfold newer_first in *. by etrans.
Qed.

Lemma insert_row_sorted (x : task_row) (rows : list task_row) :
  StronglySorted newer_first rows →
  StronglySorted newer_first (insert_row x rows).
Proof.
  induction 1 as [|y rows Hrows IH Hy]; simpl.
  - repeat constructor.
  - destruct (decide (newer_first x y)) as [Hxy|Hxy].
    + constructor; [by constructor|]. constructor; [done|].
      eapply Forall_impl; [exact Hy|]. intros z Hz.
      by apply (newer_first_trans x y z).
    + constructor; [done|].
      rewrite insert_row_Permutation. constructor; [|done].
      by destruct (newer_first_total x y).
Qed.

Lemma order_by_created_at_desc_sorted (rows : list task_row) :
  StronglySorted newer_first (order_by_created_at_desc rows).
Proof.
  induction rows as [|x rows IH]; simpl; [constructor|].
  by apply insert_row_sorted.
Qed.

(** X8. [getTasks] of part_001 lists the rows of the caller, each once and
    no other, from the newest creation stamp to the oldest, with
    [completed] as a boolean. *)
Theorem part_001_list_newest_first (db : table) (userId : Z) :
  ∃ rows,
    getTasks db userId
    = (sendResponse 200 (TasksBody (map format_row rows)), db)
    ∧ rows ≡ₚ List.filter (λ r, user_id r =? userId) db
    ∧ StronglySorted
        (λ a b, String.leb (created_at b) (created_at a) = true) rows
    ∧ ∀ r, r ∈ rows →
        format_row r !! "completed" = Some (JBool (negb (completed r =? 0))).
Proof.
  exists (select_tasks db userId). split_and!.
  - done.
  - apply order_by_created_at_desc_Permutation.
  - pose proof (order_by_created_at_desc_sorted
                  (List.filter (λ r, user_id r =? userId) db)) as Hs.
    fold (select_tasks db userId) in Hs.
    induction Hs as [|a l Hl IH Ha]; constructor; [done|].
    eapply Forall_impl; [exact Ha|]. intros b Hb.
    unfold newer_first, String.le in Hb. by apply Is_true_true.
  - intros r _. reflexivity.
Qed.

(** X9. Task ids are a key in every table the server of part_001 can
    reach: two rows with the same id are the same row, whoever owns them. *)
Theorem part_001_task_id_is_a_key (db : table) (r r' : task_row) :
  reachable db → r ∈ db → r' ∈ db → id r = id r' → r = r'.
Proof.
  intros Hreach. apply NoDup_ids_eq. by apply reachable_NoDup.
Qed.
End MoreTable.

Section MoreTableSamples.
Import Js Part001.

Lemma part_001_update_keeps_identity_witness :
  statusCode
    (fst (updateTask (λ _, None) "2023-11-15 10:00:00"
            [Sample.row_bob; Sample.row_alice]
            {[ "text" := JStr "Buy oat milk" ]} 1
            "task_1700000000200_alice"))
  = 200.
Proof.
  refine (proj2 (proj2 (proj2 (proj2
            (part_001_update_keeps_identity (λ _, None) "2023-11-15 10:00:00"
               [Sample.row_bob; Sample.row_alice]
               {[ "text" := JStr "Buy oat milk" ]} 1
               "task_1700000000200_alice")))) _).
  eexists. reflexivity.
Defined.

Lemma part_001_task_id_is_a_key_witness :
  Sample.row_bob = Sample.row_bob.
Proof.
  apply (part_001_task_id_is_a_key [Sample.row_bob]).
  - exact (reachable_create Sample.clock_bob "2023-11-14 22:13:20"
             [] Sample.pay_rent 2 reachable_empty).
  - apply list_elem_of_here.
  - apply list_elem_of_here.
  - reflexivity.
Defined.
End MoreTableSamples.

(** ** The routes of index.js *)

Section Routes.
Import Js TaskFiles Server.
Variable bcrypt_hash : json → option string.
Variable bcrypt_compare : json → string → option bool.
Variable disk : string → option string.

Lemma startsWith_chars (p s : string) :
  IndexJs.startsWith p s = true →
  ∃ r, chars_of s = chars_of p ++ r.
Proof.
  unfold IndexJs.startsWith. intros H. apply bool_decide_eq_true in H.
  destruct H as [r Hr]. exists r. by apply strip_prefix_Some.
Qed.

Lemma chars_of_inj (s1 s2 : string) : chars_of s1 = chars_of s2 → s1 = s2.
Proof.
  unfold chars_of. intros H.
  rewrite <- (String.string_of_list_ascii_of_string s1),
          <- (String.string_of_list_ascii_of_string s2). by rewrite H.
Qed.

Lemma string_of_chars (s : string) (l : list ascii) :
  chars_of s = l → s = String.string_of_list_ascii l.
Proof.
  intros <-. unfold chars_of.
  by rewrite String.string_of_list_ascii_of_string.
Qed.

(** A path under [/api/tasks/] is under [/api/] and is none of the three
    fixed routes. *)
Lemma task_path (p : string) :
  IndexJs.startsWith "/api/tasks/" p = true →
  IndexJs.startsWith "/api/" p = true
  ∧ String.eqb p "/api/register" = false
  ∧ String.eqb p "/api/login" = false
  ∧ String.eqb p "/api/tasks" = false.
Proof.
  intros [r Hr]%startsWith_chars. apply string_of_chars in Hr as ->.
  by split_and!.
Qed.

(** X10. The task routes need a user: a request to [/api/tasks] or below
    [/api/tasks/] whose header [authenticate] does not resolve is answered
    with 401, whatever its method (other than OPTIONS) and body, and the
    users and the tasks stay as they are. *)
Theorem task_routes_need_a_user (c : clock) (st : state)
    (req : http_request) :
  method req ≠ "OPTIONS" →
  pathname req = "/api/tasks"
  ∨ IndexJs.startsWith "/api/tasks/" (pathname req) = true →
  IndexJs.authenticate (users st) (authorization req) = None →
  server bcrypt_hash bcrypt_compare disk c st req
  = (Json (sendResponse 401 (ErrorBody "Не авторизован")), st).
Proof.
  intros Hm Hp Hauth. unfold server, handleApiRequest.
  apply String.eqb_neq in Hm. rewrite Hm.
  destruct Hp as [Hp|Hp].
  - rewrite Hp. cbn. by rewrite Hauth.
  - destruct (task_path _ Hp) as (-> & -> & -> & ->). cbn [andb].
    by rewrite Hp, Hauth.
Qed.

(** X11. Any other path under [/api/] is answered with 404 and changes
    nothing; so is [/api/register] or [/api/login] with a method other than
    POST. *)
Theorem unknown_api_route (c : clock) (st : state) (req : http_request) :
  method req ≠ "OPTIONS" →
  IndexJs.startsWith "/api/" (pathname req) = true →
  pathname req ≠ "/api/tasks" →
  IndexJs.startsWith "/api/tasks/" (pathname req) = false →
  (pathname req = "/api/register" ∨ pathname req = "/api/login" →
   method req ≠ "POST") →
  server bcrypt_hash bcrypt_compare disk c st req
  = (Json (sendResponse 404 (ErrorBody "Не найдено")), st).
Proof.
  intros Hm Hapi Htasks Hbelow Hpost. unfold server, handleApiRequest.
  apply String.eqb_neq in Hm. rewrite Hm, Hapi.
  apply String.eqb_neq in Htasks. rewrite Htasks, Hbelow.
  destruct (String.eqb_spec (pathname req) "/api/register") as [Hr|Hr];
    destruct (String.eqb_spec (pathname req) "/api/login") as [Hl|Hl];
    try (assert (String.eqb (method req) "POST" = false) as ->
           by (apply String.eqb_neq, Hpost; auto));
    done.
Qed.

(** X12. A user who calls a task route with a method the route does not
    know gets no answer at all: the handler returns without sending one, and
    nothing changes. *)
Theorem task_route_without_answer (c : clock) (st : state)
    (req : http_request) (who : IndexJs.identity) :
  IndexJs.authenticate (users st) (authorization req) = Some who →
  method req ≠ "OPTIONS" →
  (pathname req = "/api/tasks"
   ∧ method req ≠ "GET" ∧ method req ≠ "POST")
  ∨ (IndexJs.startsWith "/api/tasks/" (pathname req) = true
     ∧ method req ≠ "PUT" ∧ method req ≠ "DELETE") →
  server bcrypt_hash bcrypt_compare disk c st req = (NoReply, st).
Proof.
  intros Hauth Hm Hcase. unfold server, handleApiRequest.
  apply String.eqb_neq in Hm. rewrite Hm.
  destruct Hcase as [(Hp & H1 & H2)|(Hp & H1 & H2)];
    apply String.eqb_neq in H1; apply String.eqb_neq in H2.
  - rewrite Hp. cbn. by rewrite Hauth, H1, H2.
  - destruct (task_path _ Hp) as (-> & -> & -> & ->). cbn [andb].
    by rewrite Hp, Hauth, H1, H2.
Qed.

Lemma serveFile_html (filePath : string) :
  endsWith ".html" filePath = true →
  serveFile disk filePath None
  = match disk filePath with
    | None => Content 404 None "File not found"
    | Some content => Content 200 (Some "text/html") content
    end.
Proof.
  unfold endsWith. intros H. apply bool_decide_eq_true in H as [r Hr].
  apply strip_prefix_Some in Hr. unfold serveFile.
  assert (Hext : extname filePath = ".html" ∨ extname filePath = "").
  { unfold extname. rewrite Hr. simpl.
    destruct (until_slash r) as [|a [|b l]]; simpl; auto. }
  by destruct Hext as [-> | ->].
Qed.

Lemma endsWith_append (s suffix : string) :
  endsWith suffix (s +:+ suffix) = true.
Proof.
  unfold endsWith. apply bool_decide_eq_true.
  assert (Happ : chars_of (s +:+ suffix) = chars_of s ++ chars_of suffix).
  { induction s as [|a s IH]; [done|].
    change (String a s +:+ suffix) with (String a (s +:+ suffix)).
    unfold chars_of in *. simpl. by rewrite IH. }
  rewrite Happ, rev_app_distr.
  assert (Hstrip : ∀ w r : list ascii, strip_prefix w (w ++ r) = Some r).
  { induction w as [|a w IH]; intros r; simpl; [done|].
    rewrite Ascii.eqb_refl. apply IH. }
  rewrite Hstrip. eauto.
Qed.

(** X13. A page request is answered from one file and changes nothing. For
    a path below [/style/] the file is the path itself under the working
    directory and its type is text/css; for every other path the file is
    some [pages….html] and its type is text/html (the types that [serveFile]
    knows for .js and .json are never used). The status is 200 when the
    file can be read, also for the page of unknown paths, and 404 with
    [File not found] when it cannot. *)
Theorem page_request (c : clock) (st : state) (req : http_request) :
  method req ≠ "OPTIONS" →
  IndexJs.startsWith "/api/" (pathname req) = false →
  let style := IndexJs.startsWith "/style/" (pathname req) in
  ∃ filePath,
    server bcrypt_hash bcrypt_compare disk c st req
    = (match disk filePath with
       | None => Content 404 None "File not found"
       | Some content =>
           Content 200 (Some (if style then "text/css" else "text/html"))
             content
       end, st)
    ∧ if style then filePath = "." +:+ pathname req
      else IndexJs.startsWith "pages" filePath = true
           ∧ endsWith ".html" filePath = true.
Proof.
  intros Hm Hapi style. unfold server, handleStaticFiles.
  apply String.eqb_neq in Hm. rewrite Hm, Hapi. cbv zeta.
  destruct (String.eqb_spec (pathname req) "/") as [Hroot|Hroot].
  { exists "pages/reg.html". unfold style. rewrite Hroot.
    by rewrite serveFile_html. }
  destruct (String.eqb (pathname req) "/index.html"
            || String.eqb (pathname req) "/main.html"
            || String.eqb (pathname req) "/tasks") eqn:Hindex.
  { exists "pages/index.html". unfold style.
    assert (IndexJs.startsWith "/style/" (pathname req) = false) as ->.
    { apply orb_true_iff in Hindex as [[H|H]%orb_true_iff|H];
        apply String.eqb_eq in H; by rewrite H. }
    by rewrite serveFile_html. }
  fold style. destruct style eqn:Hstyle.
  { exists ("." +:+ pathname req). split; [|done]. unfold serveFile.
    by destruct (disk _). }
  destruct (endsWith ".html" (pathname req)
            || includes ["/log"; "/reg"; "/pravila"; "/plata"]
                 (pathname req)) eqn:Hpage.
  - destruct (endsWith ".html" ("pages" +:+ pathname req)) eqn:Hends;
      cbn [negb].
    + exists ("pages" +:+ pathname req).
      rewrite serveFile_html by done. by split_and!.
    + exists (("pages" +:+ pathname req) +:+ ".html").
      rewrite serveFile_html by apply endsWith_append. split; [done|].
      split; [done|apply endsWith_append].
  - exists "pages/404.html". by rewrite serveFile_html.
Qed.
End Routes.

Section Routing.
Import Js TaskFiles Server.
Variable bcrypt_hash : json → option string.
Variable bcrypt_compare : json → string → option bool.
Variable disk : string → option string.

(** X14. Only four routes write: a request that is neither a POST to
    [/api/register] or [/api/tasks] nor a PUT or DELETE below [/api/tasks/]
    leaves the users and the tasks as they are. This covers every GET and
    OPTIONS request, the login, the pages and the requests that get no
    answer. *)
Theorem only_four_routes_write (c : clock) (st : state)
    (req : http_request) :
  ¬ (method req = "POST"
     ∧ (pathname req = "/api/register" ∨ pathname req = "/api/tasks")) →
  ¬ ((method req = "PUT" ∨ method req = "DELETE")
     ∧ IndexJs.startsWith "/api/tasks/" (pathname req) = true) →
  snd (server bcrypt_hash bcrypt_compare disk c st req) = st.
Proof.
  intros Hpost Hput.
  assert (Hapi : snd (handleApiRequest bcrypt_hash bcrypt_compare c st req)
                 = st).
  { unfold handleApiRequest.
    destruct (String.eqb_spec (pathname req) "/api/register") as [Hr|_].
    { destruct (String.eqb_spec (method req) "POST") as [Hm|_];
        [exfalso; auto|].
      rewrite Hr. reflexivity. }
    destruct (String.eqb_spec (pathname req) "/api/login") as [Hl|_].
    { rewrite Hl. cbn. by destruct (String.eqb (method req) "POST"). }
    cbn [andb].
    destruct (String.eqb_spec (pathname req) "/api/tasks") as [Ht|_].
    { destruct (IndexJs.authenticate _ _); [|done].
      destruct (String.eqb_spec (method req) "GET") as [_|_];
        [by destruct st|].
      destruct (String.eqb_spec (method req) "POST") as [Hm|_];
        [exfalso; auto|done]. }
    destruct (IndexJs.startsWith "/api/tasks/" (pathname req)) eqn:Hbelow;
      [|done].
    destruct (IndexJs.authenticate _ _); [|done].
    destruct (String.eqb_spec (method req) "PUT") as [Hm|_];
      [exfalso; auto|].
    destruct (String.eqb_spec (method req) "DELETE") as [Hm|_];
      [exfalso; auto|done]. }
  unfold server, handleStaticFiles. cbv zeta.
  destruct (String.eqb (method req) "OPTIONS"); [done|].
  destruct (IndexJs.startsWith "/api/" (pathname req)); [done|].
  repeat match goal with
  | |- context [if ?b then _ else _] => destruct b
  end; reflexivity.
Qed.

Lemma split_no_sep (sep : ascii) (s : string) :
  Forall (λ c, c ≠ sep) (chars_of s) → IndexJs.split sep s = [s].
Proof.
  unfold chars_of. induction s as [|a s IH]; simpl; [done|].
  intros [Ha Hs]%Forall_cons. rewrite (IH Hs).
  by apply Ascii.eqb_neq in Ha as ->.
Qed.

Lemma split_at_sep (sep : ascii) (s rest : string) :
  Forall (λ c, c ≠ sep) (chars_of s) →
  IndexJs.split sep (s +:+ String sep rest) = s :: IndexJs.split sep rest.
Proof.
  unfold chars_of. induction s as [|a s IH].
  - intros _. change ("" +:+ String sep rest) with (String sep rest).
    simpl. by rewrite Ascii.eqb_refl.
  - intros [Ha Hs]%Forall_cons.
    change (String a s +:+ String sep rest)
      with (String a (s +:+ String sep rest)).
    simpl. rewrite (IH Hs). by apply Ascii.eqb_neq in Ha as ->.
Qed.

Lemma split_task_path (x : string) :
  IndexJs.split "/" ("/api/tasks/" +:+ x)
  = "" :: "api" :: "tasks" :: IndexJs.split "/" x.
Proof. reflexivity. Qed.

Lemma task_path_prefix (x : string) :
  IndexJs.startsWith "/api/tasks/" ("/api/tasks/" +:+ x) = true.
Proof.
  unfold IndexJs.startsWith. apply bool_decide_eq_true.
  exists (String.list_ascii_of_string x). reflexivity.
Qed.

(** X15. The task that a PUT or DELETE acts on is named by the path segment
    after [/api/tasks/]: whatever follows a further slash is ignored, and
    the path [/api/tasks/] itself names the task with the empty id. The
    request is then handled by [updateTask], stamped with the time of the
    request, or by [deleteTask], for the user of the header. *)
Theorem task_id_is_the_fourth_segment (c : clock) (st : state)
    (req : http_request) (who : IndexJs.identity) (taskId rest : string) :
  IndexJs.authenticate (users st) (authorization req) = Some who →
  Forall (λ ch, ch ≠ "/"%char) (chars_of taskId) →
  rest = "" ∨ (∃ more, rest = "/" +:+ more) →
  pathname req = "/api/tasks/" +:+ taskId +:+ rest →
  (method req = "PUT" →
   server bcrypt_hash bcrypt_compare disk c st req
   = (Json (fst (IndexJs.updateTask (iso_first c) (tasks st) (body req)
                   (IndexJs.userId who) taskId)),
      {| users := users st;
         tasks := snd (IndexJs.updateTask (iso_first c) (tasks st)
                         (body req) (IndexJs.userId who) taskId) |}))
  ∧ (method req = "DELETE" →
     server bcrypt_hash bcrypt_compare disk c st req
     = (Json (fst (IndexJs.deleteTask (tasks st) (IndexJs.userId who)
                     taskId)),
        {| users := users st;
           tasks := snd (IndexJs.deleteTask (tasks st)
                           (IndexJs.userId who) taskId) |})).
Proof.
  intros Hauth Hid Hrest Hpath.
  assert (Hseg : default "" (IndexJs.split "/" (pathname req) !! 3%nat)
                 = taskId).
  { rewrite Hpath, split_task_path.
    destruct Hrest as [->|[more ->]].
    - assert (taskId +:+ "" = taskId) as ->.
      { clear. induction taskId as [|a s IH]; [done|].
        change (String a s +:+ "") with (String a (s +:+ "")).
        by rewrite IH. }
      by rewrite split_no_sep.
    - change ("/" +:+ more) with (String "/" more).
      by rewrite split_at_sep. }
  pose proof (task_path_prefix (taskId +:+ rest)) as Hprefix.
  rewrite <- Hpath in Hprefix.
  destruct (task_path _ Hprefix) as (Hapi & Hr & Hl & Ht).
  unfold server, handleApiRequest.
  rewrite Hapi, Hr, Hl, Ht, Hprefix, Hauth, Hseg. cbn [andb].
  split; intros ->; cbn [String.eqb Ascii.eqb Bool.eqb].
  - by destruct (IndexJs.updateTask _ _ _ _ _).
  - by destruct (IndexJs.deleteTask _ _ _).
Qed.
End Routing.

Section RoutingSamples.
Import Js TaskFiles Server.

Lemma task_routes_need_a_user_witness :
  server Sample.toy_hash Sample.toy_compare (λ _, None) Sample.clock_bob
    {| users := [Sample.user_alice]; tasks := Sample.two_files |}
    {| method := "DELETE"; pathname := "/api/tasks/task_1700000000200_alice";
       authorization := Some "Basic MTcwMDAwMDAwMDAwMTpib2I=";
       body := ∅ |}
  = (Json (sendResponse 401 (ErrorBody "Не авторизован")),
     {| users := [Sample.user_alice]; tasks := Sample.two_files |}).
Proof.
  apply (task_routes_need_a_user Sample.toy_hash Sample.toy_compare
           (λ _, None) Sample.clock_bob
           {| users := [Sample.user_alice]; tasks := Sample.two_files |}
           {| method := "DELETE";
              pathname := "/api/tasks/task_1700000000200_alice";
              authorization := Some "Basic MTcwMDAwMDAwMDAwMTpib2I=";
              body := ∅ |}).
  - discriminate.
  - right. reflexivity.
  - reflexivity.
Defined.

Lemma unknown_api_route_witness :
  server Sample.toy_hash Sample.toy_compare (λ _, None) Sample.clock_bob
    {| users := [Sample.user_alice]; tasks := Sample.two_files |}
    {| method := "GET"; pathname := "/api/register";
       authorization := None; body := ∅ |}
  = (Json (sendResponse 404 (ErrorBody "Не найдено")),
     {| users := [Sample.user_alice]; tasks := Sample.two_files |}).
Proof.
  apply (unknown_api_route Sample.toy_hash Sample.toy_compare
           (λ _, None) Sample.clock_bob
           {| users := [Sample.user_alice]; tasks := Sample.two_files |}
           {| method := "GET"; pathname := "/api/register";
              authorization := None; body := ∅ |}).
  - discriminate.
  - reflexivity.
  - discriminate.
  - reflexivity.
  - intros _. discriminate.
Defined.

Lemma task_route_without_answer_witness :
  server Sample.toy_hash Sample.toy_compare (λ _, None) Sample.clock_bob
    {| users := [Sample.user_alice]; tasks := Sample.two_files |}
    {| method := "PATCH"; pathname := "/api/tasks/task_1700000000200_alice";
       authorization := Some "Basic MTcwMDAwMDAwMDAwMTphbGljZQ==";
       body := {[ "completed" := JBool true ]} |}
  = (NoReply, {| users := [Sample.user_alice]; tasks := Sample.two_files |}).
Proof.
  apply (task_route_without_answer Sample.toy_hash Sample.toy_compare
           (λ _, None) Sample.clock_bob
           {| users := [Sample.user_alice]; tasks := Sample.two_files |}
           {| method := "PATCH";
              pathname := "/api/tasks/task_1700000000200_alice";
              authorization := Some "Basic MTcwMDAwMDAwMDAwMTphbGljZQ==";
              body := {[ "completed" := JBool true ]} |}
           {| IndexJs.userId := "1700000000001";
              IndexJs.name := JStr "alice" |}).
  - reflexivity.
  - discriminate.
  - right. split; [reflexivity|]. split; discriminate.
Defined.

(** A disk with the registration page and one style sheet. *)
Lemma page_request_witness :
  ∃ filePath,
    server Sample.toy_hash Sample.toy_compare
      (λ f, if String.eqb f "pages/log.html" then Some "<html></html>"
            else None)
      Sample.clock_bob
      {| users := [Sample.user_alice]; tasks := Sample.two_files |}
      {| method := "GET"; pathname := "/log";
         authorization := None; body := ∅ |}
    = (match (if String.eqb filePath "pages/log.html"
              then Some "<html></html>" else None) with
       | None => Content 404 None "File not found"
       | Some content => Content 200 (Some "text/html") content
       end,
       {| users := [Sample.user_alice]; tasks := Sample.two_files |})
    ∧ IndexJs.startsWith "pages" filePath = true
      ∧ endsWith ".html" filePath = true.
Proof.
  apply (page_request Sample.toy_hash Sample.toy_compare
           (λ f, if String.eqb f "pages/log.html" then Some "<html></html>"
                 else None)
           Sample.clock_bob
           {| users := [Sample.user_alice]; tasks := Sample.two_files |}
           {| method := "GET"; pathname := "/log";
              authorization := None; body := ∅ |}).
  - discriminate.
  - reflexivity.
Defined.

Lemma only_four_routes_write_witness :
  snd (server Sample.toy_hash Sample.toy_compare (λ _, None)
         Sample.clock_bob
         {| users := [Sample.user_alice]; tasks := Sample.two_files |}
         {| method := "GET"; pathname := "/api/tasks";
            authorization := Some "Basic MTcwMDAwMDAwMDAwMTphbGljZQ==";
            body := ∅ |})
  = {| users := [Sample.user_alice]; tasks := Sample.two_files |}.
Proof.
  apply (only_four_routes_write Sample.toy_hash Sample.toy_compare
           (λ _, None) Sample.clock_bob
           {| users := [Sample.user_alice]; tasks := Sample.two_files |}
           {| method := "GET"; pathname := "/api/tasks";
              authorization := Some "Basic MTcwMDAwMDAwMDAwMTphbGljZQ==";
              body := ∅ |}).
  - intros [Hm _]. discriminate Hm.
  - intros [[Hm|Hm] _]; discriminate Hm.
Defined.

Lemma task_id_is_the_fourth_segment_witness :
  server Sample.toy_hash Sample.toy_compare (λ _, None) Sample.clock_bob
    {| users := [Sample.user_alice]; tasks := Sample.two_files |}
    {| method := "DELETE";
       pathname := "/api/tasks/task_1700000000200_alice/extra";
       authorization := Some "Basic MTcwMDAwMDAwMDAwMTphbGljZQ==";
       body := ∅ |}
  = (Json (fst (IndexJs.deleteTask Sample.two_files "1700000000001"
                  "task_1700000000200_alice")),
     {| users := [Sample.user_alice];
        tasks := snd (IndexJs.deleteTask Sample.two_files "1700000000001"
                        "task_1700000000200_alice") |}).
Proof.
  refine (proj2 (task_id_is_the_fourth_segment Sample.toy_hash
                   Sample.toy_compare (λ _, None) Sample.clock_bob
                   {| users := [Sample.user_alice];
                      tasks := Sample.two_files |}
                   {| method := "DELETE";
                      pathname :=
                        "/api/tasks/task_1700000000200_alice/extra";
                      authorization :=
                        Some "Basic MTcwMDAwMDAwMDAwMTphbGljZQ==";
                      body := ∅ |}
                   {| IndexJs.userId := "1700000000001";
                      IndexJs.name := JStr "alice" |}
                   "task_1700000000200_alice" "/extra" _ _ _ _) _).
  - reflexivity.
  - repeat constructor; discriminate.
  - right. exists "extra". reflexivity.
  - reflexivity.
  - reflexivity.
Defined.
End RoutingSamples.

Section StoredRows.
Import Js Part001.

(** A row as part_001 writes it. *)
Lemma sanitizeTaskData_valid (f : json → option string) (body : object)
    (d : task_data) :
  sanitizeTaskData f body = Some d →
  includes validPriorities (td_priority d) = true
  ∧ includes validCategories (td_category d) = true.
Proof.
  unfold sanitizeTaskData. intros H.
  destruct (sanitize_throws body); [done|].
  assert (Hp := includes_or_default validPriorities
                  (ToString_value (body !! "priority")) "medium" eq_refl).
  assert (Hc := includes_or_default validCategories
                  (ToString_value (body !! "category")) "personal" eq_refl).
  destruct (body !! "deadline") as [x|]; [destruct (js_truthy x)|];
    [destruct (f x); [|done]| |]; by injection H as <-.
Qed.

(** X16. What part_001 keeps in its table: in every table the server can
    reach, each row has one of the three priorities and one of the four
    categories, and its [completed] is 0 or 1, whatever the bodies of the
    requests were. (index.js and part_000 store these fields of a body as
    they come.) *)
Theorem part_001_rows_are_normal (db : table) (r : task_row) :
  reachable db → r ∈ db →
  includes validPriorities (priority r) = true
  ∧ includes validCategories (category r) = true
  ∧ (completed r = 0 ∨ completed r = 1).
Proof.
  intros Hreach. revert r.
  induction Hreach as [|c ts db body userId _ IH
                       |f ts db body userId taskId _ IH
                       |db userId taskId _ IH]; intros r Hr.
  - by apply elem_of_nil in Hr.
  - destruct (decide (statusCode (fst (createTask c ts db body userId))
                      = 201)) as [Hs|Hs].
    + destruct (part_001_create_normalizes c ts db body userId Hs)
        as (r0 & Hdb & Hp & Hc & _).
      rewrite Hdb in Hr. apply elem_of_app in Hr as [Hr|Hr]; [by apply IH|].
      apply list_elem_of_singleton in Hr as ->. split_and!; try done.
      revert Hdb. unfold createTask.
      destruct (createTask_throws body); simpl;
        [intros Hdb; apply (f_equal length) in Hdb;
         rewrite length_app in Hdb; simpl in Hdb; lia|].
      destruct (String.eqb _ ""); simpl;
        [intros Hdb; apply (f_equal length) in Hdb;
         rewrite length_app in Hdb; simpl in Hdb; lia|].
      unfold insert_task. destruct (existsb _ db); simpl.
      * intros Hdb. apply (f_equal length) in Hdb.
        rewrite length_app in Hdb. simpl in Hdb. lia.
      * intros Hdb%app_inv_head. injection Hdb as <-. by left.
    + apply IH. revert Hr Hs. unfold createTask.
      destruct (createTask_throws body); simpl; [done|].
      destruct (String.eqb _ ""); simpl; [done|].
      unfold insert_task. by destruct (existsb _ db).
  - revert Hr. unfold updateTask.
    destruct (sanitizeTaskData f body) as [d|] eqn:Hd; simpl; [|by apply IH].
    destruct (sanitizeTaskData_valid f body d Hd) as [Hp Hc].
    assert (Hin : r ∈ map (λ r0, if selected taskId userId r0
                     then {| id := id r0; user_id := user_id r0;
                             text := td_text d;
                             completed :=
                               if truthy (body !! "completed") then 1 else 0;
                             priority := td_priority d;
                             category := td_category d;
                             deadline := td_deadline d;
                             created_at := created_at r0;
                             updated_at := ts |}
                     else r0) db →
                  includes validPriorities (priority r) = true
                  ∧ includes validCategories (category r) = true
                  ∧ (completed r = 0 ∨ completed r = 1)).
    { intros (r0 & -> & Hr0)%list_elem_of_fmap.
      destruct (selected taskId userId r0); [|by apply IH].
      simpl. split_and!; try done.
      destruct (truthy (body !! "completed")); auto. }
    by destruct (_ =? 0)%nat.
  - apply IH. revert Hr. unfold deleteTask, delete_task.
    destruct (_ =? 0)%nat; simpl; intros Hr;
      by apply elem_of_filter_bool in Hr as [Hr _].
Qed.

Lemma part_001_rows_are_normal_witness :
  includes validPriorities (priority Sample.row_bob) = true
  ∧ includes validCategories (category Sample.row_bob) = true
  ∧ (completed Sample.row_bob = 0 ∨ completed Sample.row_bob = 1).
Proof.
  apply (part_001_rows_are_normal [Sample.row_bob]).
  - exact (reachable_create Sample.clock_bob "2023-11-14 22:13:20"
             [] Sample.pay_rent 2 reachable_empty).
  - apply list_elem_of_here.
Defined.
End StoredRows.
